(** * AI Personality Twin: the analysis core, embedded and verified

    A shallow embedding of the Python back end
    ([backend/nlp/models.py], [backend/nlp/pipeline.py],
    [backend/utils/helpers.py], [backend/avatar/generator.py],
    [backend/vision/emotion_detector.py] and the glue of [app.py]).

    Conventions.
    - A Python [str] is a [string]: a sequence of code points below 256
      (the Latin-1 range of Python's [str]).  Beyond that range only
      U+0130 and U+212A lower-case into [a-z]; they are outside the model.
    - A Python [float] is an exact rational ([Q]); results that the code
      rounds with [round] are kept in lowest terms, so that equal values
      are equal terms.  The two numeric formulas are also transcribed in
      binary64 ([Binary64]) and compared with the rational ones.
    - A [dict] whose order is observable (the trait scores) is an
      association list in insertion order; a [dict] used as a record of
      named fields (the result objects) is a [gmap string value].
    - The external capabilities (TextBlob, OpenCV, DeepFace, the file
      system) are section variables; failures are values of [Result]. *)

From Stdlib Require Import ZArith QArith Qround Qminmax Lqa Ascii String List Bool.
From Stdlib Require Import Floats.
From stdpp Require Import base list strings gmap sorting pretty.

Open Scope string_scope.
Open Scope list_scope.

(** ** Python's built-in text operations on [str] *)

Module Py.

(** Code point of a character. *)
Definition ord (c : ascii) : N := N_of_ascii c.

(** [str.isspace] for one character, which is also what [\s] matches
    in [re], what [str.strip] trims and where [str.split] cuts. *)
Definition isspace (c : ascii) : bool :=
  let n := ord c in
  ((9 <=? n) && (n <=? 13) || (28 <=? n) && (n <=? 32)
   || (n =? 133) || (n =? 160))%N.

(** [str.lower] on one code point of the Latin-1 range. *)
Definition lower_char (c : ascii) : ascii :=
  let n := ord c in
  if ((65 <=? n) && (n <=? 90)
      || (192 <=? n) && (n <=? 222) && negb (n =? 215))%N
  then ascii_of_N (n + 32) else c.

Fixpoint lower (s : string) : string :=
  match s with
  | "" => ""
  | String c s' => String (lower_char c) (lower s')
  end.

(** The character class [a-z]. *)
Definition is_az (c : ascii) : bool :=
  let n := ord c in ((97 <=? n) && (n <=? 122))%N.

(** [re.sub(r'[^a-z\s]', '', s)]: drop every character that is neither
    a lower-case ASCII letter nor white space. *)
Fixpoint sub_non_az_space (s : string) : string :=
  match s with
  | "" => ""
  | String c s' =>
      if is_az c || isspace c then String c (sub_non_az_space s')
      else sub_non_az_space s'
  end.

Fixpoint lstrip (s : string) : string :=
  match s with
  | "" => ""
  | String c s' => if isspace c then lstrip s' else s
  end.

(** [rstrip] keeps a character when something that is not white space
    follows it (or it is not white space itself). *)
Fixpoint rstrip (s : string) : string :=
  match s with
  | "" => ""
  | String c s' =>
      match rstrip s' with
      | "" => if isspace c then "" else String c ""
      | r => String c r
      end
  end.

(** [s.strip()] *)
Definition strip (s : string) : string := rstrip (lstrip s).

(** [s.split()]: maximal runs of characters that are not white space.
    [cur] is the run being read, last character first. *)
Fixpoint split_go (cur : option string) (s : string) : list string :=
  match s with
  | "" => option_list (String.rev <$> cur)
  | String c s' =>
      if isspace c
      then option_list (String.rev <$> cur) ++ split_go None s'
      else split_go (Some (String c (default "" cur))) s'
  end.

Definition split (s : string) : list string := split_go None s.

(** [sub in s] for strings: [sub] occurs in [s] as a substring. *)
Fixpoint contains (sub s : string) : bool :=
  String.prefix sub s ||
  match s with
  | "" => false
  | String _ s' => contains sub s'
  end.

(** [x in l] for a list of strings. *)
Definition elem (x : string) (l : list string) : bool :=
  bool_decide (x ∈ l).

(** [s[:n]] *)
Definition take (n : nat) (s : string) : string := String.substring 0 n s.

(** [sep.join(l)] *)
Definition join (sep : string) (l : list string) : string :=
  String.concat sep l.

(** [len(s)] *)
Definition len (s : string) : Z := Z.of_nat (String.length s).

(** [sorted(l, ...)] is a stable sort.  [le x y] says that [x] may
    stand before [y]; an element is put before the first element of
    the sorted rest that it may stand before, so equal elements keep
    their order.  For [reverse=True] the caller passes the converse
    order on keys, which is how Python keeps the sort stable there. *)
Section Sorted.
Context {A : Type} (le : A -> A -> bool).

Fixpoint insert_sorted (x : A) (l : list A) : list A :=
  match l with
  | [] => [x]
  | y :: l' => if le x y then x :: y :: l' else y :: insert_sorted x l'
  end.

Definition sorted (l : list A) : list A := foldr insert_sorted [] l.
End Sorted.

(** [round(x, ndigits)]: the nearest multiple of [10^-ndigits], ties
    to the even one, in lowest terms. *)
Definition round_half_even (q : Q) : Z :=
  let f := Qfloor q in
  let r := (q - inject_Z f)%Q in
  match (r ?= 1 # 2)%Q with
  | Lt => f
  | Gt => (f + 1)%Z
  | Eq => if Z.even f then f else (f + 1)%Z
  end.

Definition round (q : Q) (ndigits : nat) : Q :=
  let p := (10 ^ Z.of_nat ndigits)%Z in
  Qred (inject_Z (round_half_even (q * inject_Z p)) / inject_Z p).

(** [int(x)] on a float: truncation toward zero. *)
Definition int (q : Q) : Z := (Qnum q ÷ Z.pos (Qden q))%Z.

(** [str(n)] for an integer: its decimal digits, with a minus sign when
    it is negative. *)
Definition str_int (n : Z) : string := pretty n.

(** The character classes [A-Z] and [0-9]. *)
Definition is_AZ (c : ascii) : bool :=
  let n := ord c in ((65 <=? n) && (n <=? 90))%N.

Definition is_digit (c : ascii) : bool :=
  let n := ord c in ((48 <=? n) && (n <=? 57))%N.

(** [c.isalnum()] for one code point of the Latin-1 range: the ASCII
    letters and digits, the letters from U+00C0 on (all but the two
    operators), and the ordinal indicators, micro sign, superscript
    digits and vulgar fractions. *)
Definition isalnum (c : ascii) : bool :=
  let n := ord c in
  (is_digit c || is_AZ c || is_az c
   || (n =? 170) || (n =? 178) || (n =? 179) || (n =? 181) || (n =? 185)
   || (n =? 186) || (n =? 188) || (n =? 189) || (n =? 190)
   || (192 <=? n) && negb (n =? 215) && negb (n =? 247))%N.

(** [all(p(c) for c in s)] *)
Fixpoint all_chars (p : ascii -> bool) (s : string) : bool :=
  match s with
  | "" => true
  | String c s' => p c && all_chars p s'
  end.

(** [''.join(c for c in s if p(c))] *)
Fixpoint filter_chars (p : ascii -> bool) (s : string) : string :=
  match s with
  | "" => ""
  | String c s' => if p c then String c (filter_chars p s') else filter_chars p s'
  end.

(** [c in s] for one character. *)
Fixpoint has_char (c : ascii) (s : string) : bool :=
  match s with
  | "" => false
  | String c' s' => Ascii.eqb c c' || has_char c s'
  end.

(** The regular expression [^[class]+$] under [re.match]: one or more
    characters of the class from the start, and then the end of the
    string or the line feed that ends it.  [match_rest] is the matcher
    once a character has been taken: it stops where [$] holds or takes
    one more character. *)
Definition at_dollar (s : string) : bool :=
  String.eqb s "" || String.eqb s (String "010" "").

Fixpoint match_rest (class : ascii -> bool) (s : string) : bool :=
  at_dollar s ||
  match s with
  | "" => false
  | String c s' => class c && match_rest class s'
  end.

Definition re_match_class_plus (class : ascii -> bool) (s : string) : bool :=
  match s with
  | "" => false
  | String c s' => class c && match_rest class s'
  end.

(** [re.sub(r'\s+', ' ', s)]: every maximal run of white space becomes
    one space.  [in_run] says that the character before was white
    space. *)
Fixpoint sub_spaces_go (in_run : bool) (s : string) : string :=
  match s with
  | "" => ""
  | String c s' =>
      if isspace c then
        if in_run then sub_spaces_go true s'
        else String " " (sub_spaces_go true s')
      else String c (sub_spaces_go false s')
  end.

Definition sub_spaces (s : string) : string := sub_spaces_go false s.

(** [os.path.basename] of [posixpath]: what follows the last slash. *)
Fixpoint basename (p : string) : string :=
  match p with
  | "" => ""
  | String c p' =>
      if has_char "/" p' then basename p'
      else if Ascii.eqb c "/" then p' else p
  end.

(** [l[:n]] for a list and an integer, which may be negative. *)
Definition slice_to {A} (l : list A) (n : Z) : list A :=
  if (0 <=? n)%Z then firstn (Z.to_nat n) l
  else firstn (length l - Z.to_nat (- n)) l.

End Py.


(** Comparisons of floats, as booleans. *)
Definition Qltb (x y : Q) : bool := (Qnum x * QDen y <? Qnum y * QDen x)%Z.
Definition Qleb (x y : Q) : bool := Qle_bool x y.

(** ** Exceptions, results and the call log *)

(** A Python exception (a subclass of [Exception]); [str(e)] is its
    message. *)
Inductive Exception : Type := Exc (msg : string).

Definition str (e : Exception) : string := let 'Exc msg := e in msg.

Inductive Result (A : Type) : Type :=
  | Ok (a : A)
  | Raise (e : Exception).
Arguments Ok {A} a.
Arguments Raise {A} e.

(** One entry of the call log: a method of the analyzer, or the external
    sentiment capability, entered with a text. *)
Inductive call : Type := Call (callee : string) (text : string).

(** Computations that may raise and that record the calls they make. *)
Definition M (A : Type) : Type := list call -> Result A * list call.

Global Instance M_ret : MRet M := fun A a log => (Ok a, log).

Global Instance M_bind : MBind M := fun A B f m log =>
  match m log with
  | (Ok a, log') => f a log'
  | (Raise e, log') => (Raise e, log')
  end.

Definition enter (callee text : string) : M unit :=
  fun log => (Ok tt, log ++ [Call callee text]).

(** [try: body except Exception as e: handler(e)] *)
Definition try_except {A} (body : M A) (handler : Exception -> M A) : M A :=
  fun log =>
    match body log with
    | (Ok a, log') => (Ok a, log')
    | (Raise e, log') => handler e log'
    end.

(** The value a computation returns when started with an empty log. *)
Definition eval {A} (m : M A) : Result A := fst (m []).

(** ** Dictionaries *)

(** [Dict[str, float]] with its insertion order. *)
Abbreviation scores := (list (string * Q)).

(** [d[k] = v]: an existing key keeps its place, a new key goes last. *)
Fixpoint dict_set (k : string) (v : Q) (d : scores) : scores :=
  match d with
  | [] => [(k, v)]
  | (k', v') :: d' =>
      if String.eqb k k' then (k, v) :: d' else (k', v') :: dict_set k v d'
  end.

(** [dict(items)] *)
Definition dict_of_items (items : scores) : scores :=
  fold_left (fun d kv => dict_set kv.1 kv.2 d) items [].

(** [d.get(k)] *)
Fixpoint dict_get (k : string) (d : scores) : option Q :=
  match d with
  | [] => None
  | (k', v) :: d' => if String.eqb k k' then Some v else dict_get k d'
  end.

Definition keys (d : scores) : list string := d.*1.

(** What a field of a result object can hold. *)
Inductive value : Type :=
  | VBool (b : bool)
  | VInt (n : Z)
  | VFloat (x : Q)
  | VStr (s : string)
  | VScores (d : scores).

(** ** backend/nlp/models.py *)

Module PersonalityAnalyzer.

Definition TRAIT_KEYWORDS : list (string * list string) :=
  [ ("Creative",
      ["create"; "imagine"; "art"; "design"; "innovative"; "original";
       "unique"; "inventive"; "artistic"; "creative"; "ideas"; "inspire"]);
    ("Optimistic",
      ["happy"; "positive"; "hope"; "bright"; "excited"; "love";
       "great"; "wonderful"; "amazing"; "best"; "enjoy"; "passionate"]);
    ("Friendly",
      ["friend"; "people"; "help"; "kind"; "care"; "social";
       "together"; "team"; "share"; "support"; "community"; "connect"]);
    ("Analytical",
      ["think"; "analyze"; "logic"; "reason"; "solve"; "strategy";
       "plan"; "detail"; "organize"; "systematic"; "data"; "research"]);
    ("Adventurous",
      ["adventure"; "explore"; "travel"; "new"; "challenge"; "risk";
       "bold"; "brave"; "discover"; "experience"; "outdoor"; "journey"]);
    ("Calm",
      ["peace"; "quiet"; "relax"; "calm"; "serene"; "tranquil";
       "meditate"; "mindful"; "balance"; "harmony"; "gentle"; "patient"]);
    ("Energetic",
      ["energy"; "active"; "dynamic"; "enthusiastic"; "vigorous";
       "lively"; "spirited"; "fast"; "action"; "sport"; "exercise"]);
    ("Empathetic",
      ["understand"; "feel"; "empathy"; "compassion"; "sensitive";
       "emotion"; "listen"; "care"; "concern"; "warm"; "heart"]) ].

Definition clean_text (text : string) : string :=
  let text := Py.lower text in
  let text := Py.sub_non_az_space text in
  Py.strip text.

(** The inner loop of [extract_traits]: one keyword, with the running
    [(score, matches)]. *)
Definition scan_keyword (cleaned_text : string) (words : list string)
    (acc : Z * Z) (keyword : string) : Z * Z :=
  let '(score, matches) := acc in
  if Py.contains keyword cleaned_text then
    let matches := (matches + 1)%Z in
    if Py.elem keyword words then ((score + 2)%Z, matches)
    else ((score + 1)%Z, matches)
  else (score, matches).

(** The body of the outer loop: one trait of the catalogue. *)
Definition scan_trait (cleaned_text : string) (words : list string)
    (trait_scores : scores) (entry : string * list string) : scores :=
  let '(trait, keywords) := entry in
  let '(score, matches) :=
    fold_left (scan_keyword cleaned_text words) keywords (0, 0)%Z in
  if (0 <? matches)%Z then
    let confidence :=
      Qmin 100 (inject_Z score / inject_Z (Z.of_nat (length keywords))
                * 100 + 20) in
    dict_set trait (Py.round confidence 1) trait_scores
  else trait_scores.

(** [sorted(d.items(), key=lambda x: x[1], reverse=True)] *)
Definition sorted_by_score_desc (d : scores) : scores :=
  Py.sorted (fun x y => Qleb y.2 x.2) d.

(** [get_personality_summary] *)
Definition get_personality_summary (traits : scores) : string :=
  match traits with
  | [] => "Your personality is unique and multifaceted!"
  | _ =>
      let top_traits := take 3 (keys traits) in
      match top_traits with
      | [a] => "You are primarily " +:+ a +:+ "."
      | [a; b] => "You are " +:+ a +:+ " and " +:+ b +:+ "."
      | _ => "You are " +:+ Py.join ", " (removelast top_traits)
             +:+ ", and " +:+ List.last top_traits "" +:+ "."
      end
  end.

Section WithTextBlob.

(** [TextBlob(text).sentiment]: polarity and subjectivity of a text,
    or the exception the library raises. *)
Variable sentiment : string -> Result (Q * Q).

Definition TextBlob (text : string) : M (Q * Q) :=
  fun log => (sentiment text, log ++ [Call "TextBlob" text]).

Definition analyze_sentiment (text : string) : M (string * Q) :=
  _ ← enter "analyze_sentiment" text;
  blob ← TextBlob text;
  let polarity := blob.1 in
  let sentiment :=
    if Qltb (1 # 10) polarity then "Positive"
    else if Qltb polarity (- (1 # 10)) then "Negative"
    else "Neutral" in
  mret (sentiment, polarity).

Definition extract_traits (text : string) : M scores :=
  _ ← enter "extract_traits" text;
  let cleaned_text := clean_text text in
  let words := Py.split cleaned_text in
  let trait_scores :=
    fold_left (scan_trait cleaned_text words) TRAIT_KEYWORDS [] in
  trait_scores ←
    match trait_scores with
    | [] =>
        blob ← TextBlob text;
        let blob_polarity := blob.1 in
        if Qltb 0 blob_polarity
        then mret (dict_set "Optimistic" 60 trait_scores)
        else mret (dict_set "Calm" 50 trait_scores)
    | _ => mret trait_scores
    end;
  let sorted_traits :=
    dict_of_items (take 5 (sorted_by_score_desc trait_scores)) in
  mret sorted_traits.

Definition analyze_full (text : string) : M (gmap string value) :=
  _ ← enter "analyze_full" text;
  sp ← analyze_sentiment text;
  let '(sentiment, polarity) := sp in
  traits ← extract_traits text;
  let summary := get_personality_summary traits in
  blob ← TextBlob text;
  let subjectivity := blob.2 in
  mret (<["sentiment" := VStr sentiment]>
       (<["polarity" := VFloat (Py.round polarity 2)]>
       (<["subjectivity" := VFloat (Py.round subjectivity 2)]>
       (<["traits" := VScores traits]>
       (<["summary" := VStr summary]>
       (<["word_count" := VInt (Z.of_nat (length (Py.split text)))]>
        ∅)))))).

End WithTextBlob.

End PersonalityAnalyzer.

(** ** backend/utils/helpers.py *)

Definition calculate_profile_score
    (sentiment_score : Q) (trait_count : Z) (text_length : Z) : Z :=
  let sentiment_points := ((sentiment_score + 1) / 2 * 40)%Q in
  let trait_points := Z.min (trait_count * 8) 40 in
  let text_points := Qmin (inject_Z text_length / 100 * 20) 20 in
  let total_score :=
    (sentiment_points + inject_Z trait_points + text_points)%Q in
  Py.int (Qmin 100 (Qmax 0 total_score)).

(** ** The numeric formulas in binary64 *)

Module Binary64.

(** The rational number that a finite float denotes. *)
Definition exact (x : float) : Q :=
  match Prim2SF x with
  | S754_finite s m e =>
      let v :=
        if (0 <=? e)%Z then inject_Z (Z.pos m * 2 ^ e)
        else Z.pos m # Pos.pow 2 (Z.to_pos (- e)) in
      if s then Qopp v else v
  | _ => 0%Q
  end.

(** [float(n)] for an integer of less than 63 bits. *)
Definition of_int (n : Z) : float :=
  if (0 <=? n)%Z then of_uint63 (Uint63.of_Z n)
  else PrimFloat.opp (of_uint63 (Uint63.of_Z (- n))).

(** [round(min(100, (score / len(keywords)) * 100 + 20), 1)]; the result
    is given as the decimal number that the returned float is nearest
    to. *)
Definition confidence (score keyword_count : Z) : Q :=
  let x := (of_int score / of_int keyword_count * 100 + 20)%float in
  Py.round (if (x <? 100)%float then exact x else 100) 1.

(** [calculate_profile_score] *)
Definition calculate_profile_score
    (sentiment_score : float) (trait_count text_length : Z) : Z :=
  let sentiment_points := ((sentiment_score + 1) / 2 * 40)%float in
  let trait_points := Z.min (trait_count * 8) 40 in
  let text_points :=
    let t := (of_int text_length / 100 * 20)%float in
    if (20 <? t)%float then 20%float else t in
  let total_score :=
    (sentiment_points + of_int trait_points + text_points)%float in
  let m := if (0 <? total_score)%float then total_score else 0%float in
  let m := if (m <? 100)%float then m else 100%float in
  Py.int (exact m).

End Binary64.

(** ** backend/nlp/pipeline.py *)

Module NLPPipeline.

(** The pipeline object: [self.analyzer], of which [process] uses the
    method [analyze_full]. *)
Record t : Type := { analyzer_analyze_full : string -> M (gmap string value) }.

(** [__init__] *)
Definition init (sentiment : string -> Result (Q * Q)) : t :=
  {| analyzer_analyze_full := PersonalityAnalyzer.analyze_full sentiment |}.

Definition process (self : t) (text : string) : M (gmap string value) :=
  if String.eqb text "" || (Py.len (Py.strip text) <? 10)%Z then
    mret (<["error" :=
             VStr "Text too short. Please provide at least 10 characters."]>
         (<["success" := VBool false]> ∅))
  else
    try_except
      (results ← analyzer_analyze_full self text;
       let results := <["success" := VBool true]> results in
       let results := <["processed_text" := VStr (Py.take 500 text)]> results in
       mret results)
      (fun e =>
         mret (<["error" := VStr ("Analysis failed: " +:+ str e)]>
              (<["success" := VBool false]> ∅))).

End NLPPipeline.

(** ** hashlib.md5 (RFC 1321) and [str.encode] *)

Module hashlib.

(** [s.encode()]: UTF-8 of code points below 256. *)
Definition encode_char (c : ascii) : list Z :=
  let n := Z.of_N (Py.ord c) in
  if (n <? 128)%Z then [n]
  else [Z.lor 192 (Z.shiftr n 6); Z.lor 128 (Z.land n 63)].

Fixpoint encode (s : string) : list Z :=
  match s with
  | "" => []
  | String c s' => encode_char c ++ encode s'
  end.

Local Open Scope Z_scope.

Definition wrap32 (x : Z) : Z := x mod 2 ^ 32.
Definition add32 (x y : Z) : Z := wrap32 (x + y).
Definition not32 (x : Z) : Z := Z.lxor x (2 ^ 32 - 1).
Definition rotl32 (x c : Z) : Z :=
  Z.lor (wrap32 (Z.shiftl x c)) (Z.shiftr x (32 - c)).

Definition shifts : list Z :=
  [ 7; 12; 17; 22; 7; 12; 17; 22; 7; 12; 17; 22; 7; 12; 17; 22;
    5; 9; 14; 20; 5; 9; 14; 20; 5; 9; 14; 20; 5; 9; 14; 20;
    4; 11; 16; 23; 4; 11; 16; 23; 4; 11; 16; 23; 4; 11; 16; 23;
    6; 10; 15; 21; 6; 10; 15; 21; 6; 10; 15; 21; 6; 10; 15; 21 ].

(** [floor(2^32 * abs(sin(i + 1)))] *)
Definition sines : list Z :=
  [ 0xd76aa478; 0xe8c7b756; 0x242070db; 0xc1bdceee;
    0xf57c0faf; 0x4787c62a; 0xa8304613; 0xfd469501;
    0x698098d8; 0x8b44f7af; 0xffff5bb1; 0x895cd7be;
    0x6b901122; 0xfd987193; 0xa679438e; 0x49b40821;
    0xf61e2562; 0xc040b340; 0x265e5a51; 0xe9b6c7aa;
    0xd62f105d; 0x02441453; 0xd8a1e681; 0xe7d3fbc8;
    0x21e1cde6; 0xc33707d6; 0xf4d50d87; 0x455a14ed;
    0xa9e3e905; 0xfcefa3f8; 0x676f02d9; 0x8d2a4c8a;
    0xfffa3942; 0x8771f681; 0x6d9d6122; 0xfde5380c;
    0xa4beea44; 0x4bdecfa9; 0xf6bb4b60; 0xbebfbc70;
    0x289b7ec6; 0xeaa127fa; 0xd4ef3085; 0x04881d05;
    0xd9d4d039; 0xe6db99e5; 0x1fa27cf8; 0xc4ac5665;
    0xf4292244; 0x432aff97; 0xab9423a7; 0xfc93a039;
    0x655b59c3; 0x8f0ccc92; 0xffeff47d; 0x85845dd1;
    0x6fa87e4f; 0xfe2ce6e0; 0xa3014314; 0x4e0811a1;
    0xf7537e82; 0xbd3af235; 0x2ad7d2bb; 0xeb86d391 ].

(** Little-endian bytes of a number, [n] of them. *)
Fixpoint to_bytes (n : nat) (x : Z) : list Z :=
  match n with
  | O => []
  | S n' => Z.land x 255 :: to_bytes n' (Z.shiftr x 8)
  end.

Fixpoint of_bytes (l : list Z) : Z :=
  match l with
  | [] => 0
  | b :: l' => b + 256 * of_bytes l'
  end.

(** The message, a single 1 bit, zeros up to 56 modulo 64 bytes, and
    the bit length on 64 bits. *)
Definition pad (msg : list Z) : list Z :=
  let n := Z.of_nat (length msg) in
  msg ++ [128] ++ replicate (Z.to_nat ((55 - n) mod 64)) 0
      ++ to_bytes 8 ((8 * n) mod 2 ^ 64).

(** Consecutive groups of [k] elements, [n] of them. *)
Fixpoint groups {A} (k n : nat) (l : list A) : list (list A) :=
  match n with
  | O => []
  | S n' => take k l :: groups k n' (drop k l)
  end.

Definition words_of_block (block : list Z) : list Z :=
  of_bytes <$> groups 4 16 block.

Definition step (m : list Z) (st : Z * Z * Z * Z) (i : Z) : Z * Z * Z * Z :=
  let '(a, b, c, d) := st in
  let '(f, g) :=
    if i <? 16 then (Z.lor (Z.land b c) (Z.land (not32 b) d), i)
    else if i <? 32 then
      (Z.lor (Z.land d b) (Z.land (not32 d) c), (5 * i + 1) mod 16)
    else if i <? 48 then (Z.lxor b (Z.lxor c d), (3 * i + 5) mod 16)
    else (Z.lxor c (Z.lor b (not32 d)), (7 * i) mod 16) in
  let f := add32 (add32 (add32 f a) (nth (Z.to_nat i) sines 0))
                 (nth (Z.to_nat g) m 0) in
  (d, add32 b (rotl32 f (nth (Z.to_nat i) shifts 0)), b, c).

Definition compress (st : Z * Z * Z * Z) (block : list Z) : Z * Z * Z * Z :=
  let m := words_of_block block in
  let '(a0, b0, c0, d0) := st in
  let '(a, b, c, d) := fold_left (step m) (seqZ 0 64) st in
  (add32 a0 a, add32 b0 b, add32 c0 c, add32 d0 d).

Definition md5_digest (msg : list Z) : list Z :=
  let padded := pad msg in
  let '(a, b, c, d) :=
    fold_left compress (groups 64 (length padded / 64)%nat padded)
              (0x67452301, 0xefcdab89, 0x98badcfe, 0x10325476) in
  to_bytes 4 a ++ to_bytes 4 b ++ to_bytes 4 c ++ to_bytes 4 d.

Definition hex_digit (n : Z) : ascii :=
  if n <? 10 then ascii_of_N (Z.to_N (48 + n))
  else ascii_of_N (Z.to_N (87 + n)).

Fixpoint hex (bytes : list Z) : string :=
  match bytes with
  | [] => ""
  | b :: l => String (hex_digit (b / 16)) (String (hex_digit (b mod 16)) (hex l))
  end.

(** [hashlib.md5(data).hexdigest()] *)
Definition md5_hexdigest (data : list Z) : string := hex (md5_digest data).

End hashlib.

(** ** backend/avatar/generator.py *)

Module AvatarGenerator.

Definition DICEBEAR_BASE_URL : string := "https://api.dicebear.com/7.x".

Definition STYLE_MAPPING : list (string * string) :=
  [ ("creative", "avataaars");
    ("optimistic", "bottts");
    ("friendly", "big-smile");
    ("analytical", "personas");
    ("adventurous", "adventurer");
    ("calm", "lorelei");
    ("energetic", "fun-emoji");
    ("default", "avataaars") ].

(** [STYLE_MAPPING[key]] *)
Definition style_at (key : string) : string :=
  default "" (snd <$> find (fun kv => String.eqb key kv.1) STYLE_MAPPING).

Definition generate_seed (name : string) (traits : list string) : string :=
  let combined := name +:+ Py.join "" (Py.sorted String.leb traits) in
  Py.take 10 (hashlib.md5_hexdigest (hashlib.encode combined)).

(** [max(traits, key=lambda k: traits[k])]: the first key whose value
    no other value exceeds. *)
Fixpoint max_key (best : string * Q) (rest : scores) : string :=
  match rest with
  | [] => best.1
  | kv :: rest' => max_key (if Qltb best.2 kv.2 then kv else best) rest'
  end.

(** The loop over [STYLE_MAPPING.items()] with its early return. *)
Fixpoint first_style (dominant_trait : string)
    (mapping : list (string * string)) : option string :=
  match mapping with
  | [] => None
  | (key, style) :: mapping' =>
      if Py.contains key dominant_trait then Some style
      else first_style dominant_trait mapping'
  end.

Definition get_style_from_traits (traits : scores) : string :=
  match traits with
  | [] => style_at "default"
  | kv :: rest =>
      let dominant_trait := Py.lower (max_key kv rest) in
      match first_style dominant_trait STYLE_MAPPING with
      | Some style => style
      | None => style_at "default"
      end
  end.

Definition generate_avatar_url
    (name : string) (traits : option scores) (emotion : string) : string :=
  let traits := match traits with None => [] | Some traits => traits end in
  let style := get_style_from_traits traits in
  let trait_list := keys traits in
  let seed := generate_seed name trait_list in
  let url := DICEBEAR_BASE_URL +:+ "/" +:+ style +:+ "/svg" in
  let params :=
    [ "seed=" +:+ seed; "size=200"; "backgroundColor=b6e3f4,c0aede,d1d4f9" ] in
  let params :=
    if String.eqb (Py.lower emotion) "happy" then params ++ ["mood[]=happy"]
    else if String.eqb (Py.lower emotion) "sad" then params ++ ["mood[]=sad"]
    else params in
  url +:+ "?" +:+ Py.join "&" params.

End AvatarGenerator.

(** ** backend/vision/emotion_detector.py *)

(** The pictographs of [EMOTION_EMOJIS]; their encoding is not modelled. *)
Inductive emoji : Type :=
  | smiling_face | crying_face | angry_face | astonished_face
  | fearful_face | nauseated_face | neutral_face.

(** What a field of a detection result can hold. *)
Inductive field : Type :=
  | FBool (b : bool)
  | FNum (x : Q)
  | FStr (s : string)
  | FEmoji (e : emoji)
  | FScores (d : scores).

Global Instance Result_ret : MRet Result := fun A a => Ok a.

Global Instance Result_bind : MBind Result := fun A B f r =>
  match r with
  | Ok a => f a
  | Raise e => Raise e
  end.

Module EmotionDetector.

Definition EMOTION_EMOJIS : list (string * emoji) :=
  [ ("happy", smiling_face);
    ("sad", crying_face);
    ("angry", angry_face);
    ("surprise", astonished_face);
    ("fear", fearful_face);
    ("disgust", nauseated_face);
    ("neutral", neutral_face) ].

(** One face as DeepFace reports it: the keys ['emotion'] and
    ['dominant_emotion'] of the dictionary, either of which may be
    missing. *)
Record analysis : Type :=
  { emotion : option scores; dominant_emotion : option string }.

(** [DeepFace.analyze] returns one dictionary or a list of them. *)
Inductive deepface_result : Type :=
  | OneFace (a : analysis)
  | Faces (l : list analysis).

Section WithCollaborators.

(** A decoded image ([np.ndarray]). *)
Variable image : Type.
(** [cv2.imdecode(np.frombuffer(b, np.uint8), cv2.IMREAD_COLOR)];
    [None] when the bytes are not an image. *)
Variable imdecode : list Z -> option image.
(** [tempfile.NamedTemporaryFile] followed by [cv2.imwrite]: the name
    of the file written. *)
Variable write_temp : image -> Result string.
(** [os.path.exists] *)
Variable path_exists : string -> bool.
(** [DeepFace.analyze(img_path=..., actions=['emotion'], ...)] *)
Variable DeepFace_analyze : string -> Result deepface_result.

(** The dictionary built from one face. *)
Definition report (a : analysis) : gmap string field :=
  let emotions : scores := default [] (emotion a) in
  let dominant : string := default "neutral" (dominant_emotion a) in
  let confidence : Q :=
    match emotions with
    | [] => 0%Q
    | _ => default 0%Q (dict_get dominant emotions)
    end in
  <["success" := FBool true]>
  (<["dominant_emotion" := FStr dominant]>
  (<["all_emotions" := FScores emotions]>
  (<["emoji" :=
       FEmoji (default neutral_face
                 (snd <$> find (fun kv => String.eqb (Py.lower dominant) kv.1)
                               EMOTION_EMOJIS))]>
  (<["confidence" := FNum (Py.round confidence 2)]> ∅)))).

(** The removal of the temporary file ([os.unlink]) has no effect on
    the result and is left out. *)
Definition detect_emotion
    (image_path : option string) (image_array : option image)
    : gmap string field :=
  let body : Result (gmap string field) :=
    image_path ←
      match image_array with
      | Some arr => tmp ← write_temp arr; mret (Some tmp)
      | None => mret image_path
      end;
    match image_path with
    | Some path =>
        if negb (String.eqb path "") && path_exists path then
          result ← DeepFace_analyze path;
          match result with
          | Faces [] =>
              mret (<["success" := FBool false]>
                   (<["error" := FStr "No face detected"]>
                   (<["dominant_emotion" := FStr "neutral"]>
                   (<["emoji" := FEmoji neutral_face]>
                   (<["message" :=
                        FStr "Could not detect face. Using neutral emotion."]>
                    ∅)))))
          | Faces (a :: _) => mret (report a)
          | OneFace a => mret (report a)
          end
        else
          mret (<["error" := FStr "Invalid image path"]>
               (<["success" := FBool false]>
               (<["dominant_emotion" := FStr "neutral"]>
               (<["emoji" := FEmoji neutral_face]> ∅))))
    | None =>
        mret (<["error" := FStr "Invalid image path"]>
             (<["success" := FBool false]>
             (<["dominant_emotion" := FStr "neutral"]>
             (<["emoji" := FEmoji neutral_face]> ∅))))
    end in
  match body with
  | Ok d => d
  | Raise e =>
      <["success" := FBool false]>
      (<["error" := FStr (str e)]>
      (<["dominant_emotion" := FStr "neutral"]>
      (<["emoji" := FEmoji neutral_face]>
      (<["message" :=
           FStr "Could not detect face. Using neutral emotion."]> ∅))))
  end.

Definition detect_from_bytes (image_bytes : list Z) : gmap string field :=
  match imdecode image_bytes with
  | None =>
      <["success" := FBool false]>
      (<["error" := FStr "Could not decode image"]>
      (<["dominant_emotion" := FStr "neutral"]>
      (<["emoji" := FEmoji neutral_face]> ∅)))
  | Some image => detect_emotion None (Some image)
  end.

(** ** app.py: the emotion that goes into the profile

    [emotion_result = None], the detector's answer if a photo was
    uploaded, and the neutral default in place of a missing or
    unsuccessful answer. *)
Definition truthy (v : option field) : bool :=
  match v with
  | None => false
  | Some (FBool b) => b
  | Some (FNum x) => negb (Qeq_bool x 0)
  | Some (FStr s) => negb (String.eqb s "")
  | Some (FEmoji _) => true
  | Some (FScores d) => match d with [] => false | _ => true end
  end.

Definition emotion_result (uploaded_image : option (list Z))
    : gmap string field :=
  let emotion_result :=
    match uploaded_image with
    | Some image_bytes => Some (detect_from_bytes image_bytes)
    | None => None
    end in
  match emotion_result with
  | Some r =>
      if (size r =? 0)%nat || negb (truthy (r !! "success")) then
        <["dominant_emotion" := FStr "neutral"]>
        (<["emoji" := FEmoji neutral_face]>
        (<["confidence" := FNum 0]> ∅))
      else r
  | None =>
      <["dominant_emotion" := FStr "neutral"]>
      (<["emoji" := FEmoji neutral_face]>
      (<["confidence" := FNum 0]> ∅))
  end.

End WithCollaborators.

End EmotionDetector.

(** ** backend/utils/helpers.py: validation and display helpers *)

(** The class [[a-zA-Z\s\-']] of [validate_name]. *)
Definition name_char (c : ascii) : bool :=
  Py.is_az c || Py.is_AZ c || Py.isspace c
  || Ascii.eqb c "-" || Ascii.eqb c "'".

Definition validate_name (name : string) : bool * string :=
  if String.eqb name "" || (Py.len (Py.strip name) =? 0)%Z then
    (false, "Name cannot be empty")
  else if (Py.len name <? 2)%Z then
    (false, "Name must be at least 2 characters")
  else if (50 <? Py.len name)%Z then
    (false, "Name must be less than 50 characters")
  else if negb (Py.re_match_class_plus name_char name) then
    (false, "Name can only contain letters, spaces, hyphens, and apostrophes")
  else (true, "").

Definition validate_text_input (text : string) (min_length : Z)
    : bool * string :=
  if String.eqb text "" || (Py.len (Py.strip text) =? 0)%Z then
    (false, "Please provide some text to analyze")
  else if (Py.len (Py.strip text) <? min_length)%Z then
    (false, "Text must be at least " +:+ Py.str_int min_length
            +:+ " characters")
  else if (5000 <? Py.len text)%Z then
    (false, "Text is too long (maximum 5000 characters)")
  else (true, "").

Definition sanitize_input (text : string) : string :=
  let text := Py.strip text in
  let text := Py.sub_spaces text in
  text.

(** [d.get(key, default)] for a table of strings. *)
Definition table_get (table : list (string * string)) (key fallback : string)
    : string :=
  default fallback (snd <$> find (fun kv => String.eqb key kv.1) table).

Definition emotion_colors : list (string * string) :=
  [ ("happy", "#FFD700");
    ("sad", "#4169E1");
    ("angry", "#DC143C");
    ("surprise", "#FF69B4");
    ("fear", "#9370DB");
    ("disgust", "#8B4513");
    ("neutral", "#708090") ].

Definition get_color_from_emotion (emotion : string) : string :=
  table_get emotion_colors (Py.lower emotion) "#808080".

Definition trait_colors : list (string * string) :=
  [ ("Creative", "#9B59B6");
    ("Optimistic", "#F39C12");
    ("Friendly", "#3498DB");
    ("Analytical", "#16A085");
    ("Adventurous", "#E74C3C");
    ("Calm", "#95A5A6");
    ("Energetic", "#E67E22");
    ("Empathetic", "#E91E63") ].

Definition get_color_from_trait (trait : string) : string :=
  table_get trait_colors trait "#34495E".

(** ** backend/nlp/pipeline.py: the descriptions of the traits *)

Definition get_trait_descriptions : list (string * string) :=
  [ ("Creative", "You have an imaginative mind and love to create new things.");
    ("Optimistic",
      "You see the bright side of life and maintain a positive outlook.");
    ("Friendly", "You enjoy connecting with others and building relationships.");
    ("Analytical", "You approach problems logically and enjoy problem-solving.");
    ("Adventurous", "You seek new experiences and embrace challenges.");
    ("Calm", "You maintain composure and bring peace to situations.");
    ("Energetic", "You have high energy and enthusiasm for activities.");
    ("Empathetic", "You understand and share the feelings of others.") ].

(** ** backend/avatar/generator.py: several avatars *)

Definition generate_multiple_avatars
    (name : string) (traits : scores) (count : Z) : list string :=
  let styles := ["avataaars"; "bottts"; "big-smile"; "personas"] in
  imap (fun (i : nat) (style : string) =>
          let seed := AvatarGenerator.generate_seed name (keys traits) in
          let url :=
            AvatarGenerator.DICEBEAR_BASE_URL +:+ "/" +:+ style +:+ "/svg" in
          let params :=
            [ "seed=" +:+ seed +:+ Py.str_int (Z.of_nat i); "size=150";
              "backgroundColor=b6e3f4,c0aede,d1d4f9" ] in
          url +:+ "?" +:+ Py.join "&" params)
       (Py.slice_to styles count).

(** ** backend/vision/emotion_detector.py: descriptions *)

Definition emotion_descriptions : list (string * string) :=
  [ ("happy", "You appear joyful and content!");
    ("sad", "You seem a bit down. Hope things get better!");
    ("angry", "You appear frustrated. Take a deep breath!");
    ("surprise", "You look surprised or amazed!");
    ("fear", "You seem worried. Everything will be okay!");
    ("disgust", "You appear displeased about something.");
    ("neutral", "You have a calm, neutral expression.") ].

Definition get_emotion_description (emotion : string) : string :=
  table_get emotion_descriptions (Py.lower emotion) "Interesting expression!".

(** ** backend/utils/storage.py: file names *)

Definition _sanitize_filename (filename : string) : string :=
  let filename := Py.basename filename in
  let filename :=
    Py.filter_chars
      (fun c => Py.isalnum c || Py.has_char c "._-") filename in
  if negb (Py.has_char "." filename) then filename +:+ ".jpg" else filename.

(** ** app.py: the analysis of one submission *)

(** What the handler of the button ends with: an error shown to the
    user ([st.error], after its cross mark), or the values that go to
    [save_profile] together with the profile score. *)
Record profile : Type :=
  { profile_name : string;
    profile_text_input : string;
    profile_personality_traits : scores;
    profile_emotion : string;
    profile_sentiment_score : Q;
    profile_avatar_url : string;
    profile_score : Z }.

Inductive outcome : Type :=
  | ShowError (message : string)
  | Analysed (p : profile).

(** [raise] *)
Definition raise {A} (e : Exception) : M A := fun log => (Raise e, log).

(** [d[key]], with the [KeyError] of a missing key. *)
Definition getitem {V} (d : gmap string V) (key : string) : M V :=
  match d !! key with
  | Some v => mret v
  | None => raise (Exc ("'" +:+ key +:+ "'"))
  end.

(** The truth value of a field of the analysis result. *)
Definition value_truthy (v : value) : bool :=
  match v with
  | VBool b => b
  | VInt n => negb (n =? 0)%Z
  | VFloat x => negb (Qeq_bool x 0)
  | VStr s => negb (String.eqb s "")
  | VScores d => match d with [] => false | _ => true end
  end.

(** The uses that [app.py] makes of the fields: a map of scores, a
    number, a string.  Another kind of value makes Python raise where
    the field is used. *)
Definition as_scores (v : value) : M scores :=
  match v with
  | VScores d => mret d
  | _ => raise (Exc "object has no attribute 'keys'")
  end.

Definition as_number (v : value) : M Q :=
  match v with
  | VFloat x => mret x
  | VInt n => mret (inject_Z n)
  | VBool b => mret (if b then 1 else 0)%Q
  | _ => raise (Exc "unsupported operand type(s)")
  end.

Definition as_string (v : field) : M string :=
  match v with
  | FStr s => mret s
  | _ => raise (Exc "object has no attribute 'lower'")
  end.

Module App.

Section WithCollaborators.

Variable sentiment : string -> Result (Q * Q).
Variable image : Type.
Variable imdecode : list Z -> option image.
Variable write_temp : image -> Result string.
Variable path_exists : string -> bool.
Variable DeepFace_analyze : string -> Result EmotionDetector.deepface_result.

(** The body of [if st.button(...)], up to the call of [save_profile]. *)
Definition on_analyze
    (name text_input : string) (uploaded_image : option (list Z))
    : M outcome :=
  let '(name_valid, name_error) := validate_name name in
  let '(text_valid, text_error) := validate_text_input text_input 10 in
  if negb name_valid then mret (ShowError name_error)
  else if negb text_valid then mret (ShowError text_error)
  else
    nlp_results ← NLPPipeline.process (NLPPipeline.init sentiment) text_input;
    success ← getitem nlp_results "success";
    if negb (value_truthy success) then
      mret (ShowError
              match nlp_results !! "error" with
              | Some (VStr e) => e
              | _ => "Analysis failed"
              end)
    else
      let emotion_result :=
        EmotionDetector.emotion_result image imdecode write_temp path_exists
          DeepFace_analyze uploaded_image in
      traits ← getitem nlp_results "traits";
      traits ← as_scores traits;
      dominant_emotion ← getitem emotion_result "dominant_emotion";
      dominant_emotion ← as_string dominant_emotion;
      let avatar_url :=
        AvatarGenerator.generate_avatar_url name (Some traits)
          dominant_emotion in
      polarity ← getitem nlp_results "polarity";
      polarity ← as_number polarity;
      let profile_score :=
        calculate_profile_score polarity (Z.of_nat (length traits))
          (Py.len text_input) in
      mret (Analysed
              {| profile_name := name;
                 profile_text_input := text_input;
                 profile_personality_traits := traits;
                 profile_emotion := dominant_emotion;
                 profile_sentiment_score := polarity;
                 profile_avatar_url := avatar_url;
                 profile_score := profile_score |}).

End WithCollaborators.

End App.

(** ** The trait scoring as the specification words it *)

Module Spec.

Import PersonalityAnalyzer.

(** Lower-cased, everything but letters and white space removed. *)
Definition normalize (text : string) : string :=
  Py.sub_non_az_space (Py.lower text).

(** The white-space delimited tokens of the normalized text. *)
Definition tokens (text : string) : list string := Py.split (normalize text).

(** [sub] occurs in [s]: some text stands before it and some after. *)
Definition substring_of (sub s : string) : Prop :=
  exists pre post, s = pre +:+ sub +:+ post.

(** The keyword occurs as a substring of the normalized text. *)
Definition occurs (text keyword : string) : bool :=
  Py.contains keyword (normalize text).

(** The keyword is one of the tokens. *)
Definition is_token (text keyword : string) : bool :=
  bool_decide (keyword ∈ tokens text).

(** The number of keywords of a trait that occur in the text. *)
Definition matches (text : string) (keywords : list string) : Z :=
  Z.of_nat (length (filter (fun k => occurs text k = true) keywords)).

(** Two points for a whole-word match, one for a substring match. *)
Definition points (text keyword : string) : Z :=
  if occurs text keyword then if is_token text keyword then 2 else 1
  else 0.

Definition raw_score (text : string) (keywords : list string) : Z :=
  foldr Z.add 0%Z (points text <$> keywords).

(** [min(100, (rawScore / keywordCount) * 100 + 20)] to one decimal. *)
Definition confidence (text : string) (keywords : list string) : Q :=
  Py.round
    (Qmin 100 (inject_Z (raw_score text keywords)
               / inject_Z (Z.of_nat (length keywords)) * 100 + 20)) 1.

(** A trait of the catalogue with its confidence, if it has a match. *)
Definition score_entry (text : string) (entry : string * list string)
    : option (string * Q) :=
  if (0 <? matches text entry.2)%Z
  then Some (entry.1, confidence text entry.2) else None.

(** The traits with at least one match, in catalogue order, each with
    its confidence. *)
Definition matched (text : string) : scores :=
  omap (score_entry text) TRAIT_KEYWORDS.

(** Clamping and truncation of the profile score. *)
Definition clamp (lo hi x : Q) : Q := Qmax lo (Qmin hi x).

Definition truncate (x : Q) : Z :=
  if Qle_bool 0 x then Qfloor x else Qceiling x.

Definition score (polarity : Q) (traitCount textLength : Z) : Z :=
  let sentimentPoints := ((polarity + 1) / 2 * 40)%Q in
  let traitPoints := inject_Z (Z.min (traitCount * 8) 40) in
  let textPoints := Qmin (inject_Z textLength / 100 * 20) 20 in
  truncate (clamp 0 100 (sentimentPoints + traitPoints + textPoints)).

(** A keyword of the catalogue is not empty and free of white space. *)
Fixpoint no_space (s : string) : bool :=
  match s with
  | "" => true
  | String c s' => negb (Py.isspace c) && no_space s'
  end.

Definition plain (keyword : string) : bool :=
  negb (String.eqb keyword "") && no_space keyword.

(** [x] may stand before [y] in the descending order of scores. *)
Definition before_desc (x y : string * Q) : Prop := Is_true (Qleb y.2 x.2).

(** The text is rejected by the length gate of [process]. *)
Definition too_short (text : string) : Prop :=
  text = "" \/ Py.strip text = "" \/ (Py.len (Py.strip text) < 10)%Z.

(** What [app.py] puts in place of a failed detection. *)
Definition neutral_default : gmap string field :=
  <["dominant_emotion" := FStr "neutral"]>
  (<["emoji" := FEmoji neutral_face]>
  (<["confidence" := FNum 0]> ∅)).

Section Detection.
Variable image : Type.
Variable imdecode : list Z -> option image.
Variable write_temp : image -> Result string.
Variable path_exists : string -> bool.
Variable DeepFace_analyze : string -> Result EmotionDetector.deepface_result.

(** The detection fails or finds no face: the bytes are not an image,
    the temporary file cannot be written or is not there, DeepFace
    raises, or DeepFace reports an empty list of faces. *)
Definition detection_fails (image_bytes : list Z) : bool :=
  match imdecode image_bytes with
  | None => true
  | Some img =>
      match write_temp img with
      | Raise _ => true
      | Ok path =>
          if negb (String.eqb path "") && path_exists path then
            match DeepFace_analyze path with
            | Raise _ => true
            | Ok (EmotionDetector.Faces []) => true
            | Ok _ => false
            end
          else true
      end
  end.

End Detection.

End Spec.

(** ** Results in closed form *)

(** A character that [clean_text] keeps. *)
Definition kept_char (c : ascii) : bool := Py.is_az c || Py.isspace c.

(** The traits for a text whose polarity is known. *)
Definition traits_of (polarity : Q) (text : string) : scores :=
  match Spec.matched text with
  | [] => if Qltb 0 polarity then [("Optimistic", 60%Q)] else [("Calm", 50%Q)]
  | matched => take 5 (PersonalityAnalyzer.sorted_by_score_desc matched)
  end.

(** The label of a polarity. *)
Definition label_of (polarity : Q) : string :=
  if Qltb (1 # 10) polarity then "Positive"
  else if Qltb polarity (- (1 # 10)) then "Negative"
  else "Neutral".

(** The result of the full analysis of a text whose sentiment is
    known. *)
Definition analysis_of (polarity subjectivity : Q) (text : string)
    : gmap string value :=
  <["sentiment" := VStr (label_of polarity)]>
  (<["polarity" := VFloat (Py.round polarity 2)]>
  (<["subjectivity" := VFloat (Py.round subjectivity 2)]>
  (<["traits" := VScores (traits_of polarity text)]>
  (<["summary" :=
       VStr (PersonalityAnalyzer.get_personality_summary
               (traits_of polarity text))]>
  (<["word_count" := VInt (Z.of_nat (length (Py.split text)))]> ∅))))).

(** The profile that a valid submission leads to when the sentiment of
    the text is known. *)
Definition profile_of
    (name text_input : string) (polarity : Q) (emotion : string) : profile :=
  {| profile_name := name;
     profile_text_input := text_input;
     profile_personality_traits := traits_of polarity text_input;
     profile_emotion := emotion;
     profile_sentiment_score := Py.round polarity 2;
     profile_avatar_url :=
       AvatarGenerator.generate_avatar_url name
         (Some (traits_of polarity text_input)) emotion;
     profile_score :=
       calculate_profile_score (Py.round polarity 2)
         (Z.of_nat (length (traits_of polarity text_input)))
         (Py.len text_input) |}.

(** A text in which white space occurs only as single blanks between
    words. [prev_space] says that a word has to start here. *)
Fixpoint single_spaced_go (prev_space : bool) (s : string) : bool :=
  match s with
  | "" => negb prev_space
  | String c s' =>
      if Py.isspace c
      then Ascii.eqb c " " && negb prev_space && single_spaced_go true s'
      else single_spaced_go false s'
  end.

Definition single_spaced (s : string) : bool :=
  match s with
  | "" => true
  | _ => single_spaced_go true s
  end.

(** A character that [_sanitize_filename] keeps. *)
Definition filename_char (c : ascii) : bool :=
  Py.isalnum c || Py.has_char c "._-".

(** What every caller of the detector may rely on: the result says
    whether it succeeded and names an emotion and an emoji; a failure
    carries an error, the neutral emotion and no confidence; a success
    carries a confidence and the scores of all emotions, and no error. *)
Definition well_formed_report (r : gmap string field) : Prop :=
  exists success : bool,
    r !! "success" = Some (FBool success)
    /\ is_Some (r !! "dominant_emotion")
    /\ is_Some (r !! "emoji")
    /\ (success = false ->
        is_Some (r !! "error")
        /\ r !! "confidence" = None
        /\ r !! "dominant_emotion" = Some (FStr "neutral")
        /\ r !! "emoji" = Some (FEmoji neutral_face))
    /\ (success = true ->
        r !! "error" = None
        /\ is_Some (r !! "confidence")
        /\ is_Some (r !! "all_emotions")).

(** * Properties *)

(** ** Test vectors *)

Example md5_empty :
  hashlib.md5_hexdigest (hashlib.encode "") = "d41d8cd98f00b204e9800998ecf8427e".
Proof. vm_compute. reflexivity. Qed.
Example md5_abc :
  hashlib.md5_hexdigest (hashlib.encode "abc") = "900150983cd24fb0d6963f7d28e17f72".
Proof. vm_compute. reflexivity. Qed.
Example md5_block_boundary :
  hashlib.md5_hexdigest (hashlib.encode
    "aaaaaaaaaaaaaaaaaaaaaaaaaaaaaaaaaaaaaaaaaaaaaaaaaaaaaaaa")
  = "3b0c8ac703f828b04c6c197006d17218".
Proof. vm_compute. reflexivity. Qed.
Example md5_latin1 :
  hashlib.md5_hexdigest (hashlib.encode ("caf" +:+ String (ascii_of_N 233) ""))
  = "07117fe4a1ebd544965dc19573183da2".
Proof. vm_compute. reflexivity. Qed.
Example md5_long :
  hashlib.md5_hexdigest (hashlib.encode
    "12345678901234567890123456789012345678901234567890123456789012345678901234567890")
  = "57edf4a22be3c955ac49da2e2107b67a".
Proof. vm_compute. reflexivity. Qed.

Example split_ex : Py.split "  i  create art " = ["i"; "create"; "art"].
Proof. reflexivity. Qed.
Example extract_traits_create_art : eval (PersonalityAnalyzer.extract_traits (fun _ => Ok (0%Q, 0%Q)) "I create art") = Ok [("Creative", (533 # 10)%Q)].
Proof. vm_compute. reflexivity. Qed.

(** ** Numbers *)

Lemma Qltb_lt (x y : Q) : Qltb x y = true <-> (x < y)%Q.
Proof. unfold Qltb, Qlt. apply Z.ltb_lt. Qed.

Lemma Qltb_ge (x y : Q) : Qltb x y = false <-> (y <= x)%Q.
Proof. unfold Qltb, Qle. apply Z.ltb_ge. Qed.

Lemma Qleb_le (x y : Q) : Qleb x y = true <-> (x <= y)%Q.
Proof. apply Qle_bool_iff. Qed.

Lemma Qleb_total (x y : Q) : Qleb x y = false -> Qleb y x = true.
Proof.
  intros H. apply Qleb_le. destruct (Qlt_le_dec y x) as [Hlt | Hle].
  - now apply Qlt_le_weak.
  - apply Qleb_le in Hle. congruence.
Qed.

(** [int] truncates toward zero: it is the floor of a value that is not
    negative and the ceiling of a negative one. *)
Lemma int_truncate (x : Q) : Py.int x = Spec.truncate x.
Proof.
  destruct x as [n d]. unfold Py.int, Spec.truncate, Qle_bool, Qceiling, Qfloor.
  cbn [Qnum Qden Qopp]. rewrite Z.mul_0_l, Z.mul_1_r.
  destruct (Z.leb_spec 0 n) as [Hn | Hn].
  - apply Z.quot_div_nonneg; lia.
  - rewrite <- (Z.opp_involutive n) at 1.
    rewrite Z.quot_opp_l by lia.
    rewrite Z.quot_div_nonneg by lia.
    reflexivity.
Qed.

Lemma truncate_Qeq (x y : Q) : (x == y)%Q -> Spec.truncate x = Spec.truncate y.
Proof.
  intros E. unfold Spec.truncate.
  assert (Qle_bool 0 x = Qle_bool 0 y) as ->.
  { apply eq_true_iff_eq. rewrite !Qle_bool_iff. now rewrite E. }
  destruct (Qle_bool 0 y); [now apply Qfloor_comp | now apply Qceiling_comp].
Qed.

Lemma Qmin_case_le (x y : Q) : (x <= y)%Q -> (Qmin x y == x)%Q.
Proof. apply Q.min_l. Qed.

(** The two orders of clamping agree. *)
Lemma clamp_min_max (x : Q) :
  (Qmin 100 (Qmax 0 x) == Spec.clamp 0 100 x)%Q.
Proof.
  unfold Spec.clamp.
  destruct (Qlt_le_dec x 0) as [H0 | H0].
  - rewrite (Q.max_l 0 x) by now apply Qlt_le_weak.
    rewrite (Q.min_r 100 0) by lra.
    rewrite (Q.min_r 100 x) by lra.
    rewrite Q.max_l; [reflexivity | now apply Qlt_le_weak].
  - rewrite (Q.max_r 0 x) by assumption.
    destruct (Qlt_le_dec x 100) as [H1 | H1].
    + rewrite (Q.min_r 100 x) by now apply Qlt_le_weak.
      rewrite Q.max_r; [reflexivity | assumption].
    + rewrite (Q.min_l 100 x) by assumption.
      rewrite Q.max_r; [reflexivity | lra].
Qed.

(** ** Profile score *)

Lemma calculate_profile_score_spec (polarity : Q) (traitCount textLength : Z) :
  calculate_profile_score polarity traitCount textLength
  = Spec.score polarity traitCount textLength.
Proof.
  unfold calculate_profile_score, Spec.score.
  rewrite int_truncate. apply truncate_Qeq, clamp_min_max.
Qed.

(** The three parts of the score on the domain of the claim. *)
Lemma score_parts_bounds (polarity : Q) (traitCount textLength : Z) :
  (-1 <= polarity)%Q -> (polarity <= 1)%Q ->
  (0 <= traitCount)%Z -> (0 <= textLength)%Z ->
  (0 <= (polarity + 1) / 2 * 40 <= 40)%Q /\
  (0 <= inject_Z (Z.min (traitCount * 8) 40) <= 40)%Q /\
  (0 <= Qmin (inject_Z textLength / 100 * 20) 20 <= 20)%Q.
Proof.
  intros Hlo Hhi Htc Htl.
  assert ((polarity + 1) / 2 * 40 == (polarity + 1) * 20)%Q as -> by field.
  assert (inject_Z textLength / 100 * 20 == inject_Z textLength * (1 # 5))%Q
    as E by field.
  repeat split.
  - lra.
  - lra.
  - change 0%Q with (inject_Z 0). rewrite <- Zle_Qle. lia.
  - change 40%Q with (inject_Z 40). rewrite <- Zle_Qle. lia.
  - assert (0 <= inject_Z textLength)%Q
      by (change 0%Q with (inject_Z 0); now rewrite <- Zle_Qle).
    apply Q.min_glb; lra.
  - apply Q.le_min_r.
Qed.



(** ** [sorted] *)

Section SortedFacts.
Context {A : Type} (le : A -> A -> bool).

Lemma insert_sorted_Permutation (x : A) (l : list A) :
  Py.insert_sorted le x l ≡ₚ x :: l.
Proof.
  induction l as [| y l IH]; simpl; [reflexivity |].
  destruct (le x y); [reflexivity |].
  rewrite IH. apply Permutation_swap.
Qed.

Lemma sorted_Permutation (l : list A) : Py.sorted le l ≡ₚ l.
Proof.
  induction l as [| x l IH]; simpl; [reflexivity |].
  rewrite insert_sorted_Permutation. now rewrite IH.
Qed.

Lemma sorted_length (l : list A) : length (Py.sorted le l) = length l.
Proof. apply Permutation_length, sorted_Permutation. Qed.

Hypothesis le_total : forall x y, le x y = false -> le y x = true.

Lemma insert_sorted_Sorted (x : A) (l : list A) :
  Sorted (fun a b => Is_true (le a b)) l ->
  Sorted (fun a b => Is_true (le a b)) (Py.insert_sorted le x l).
Proof.
  induction 1 as [| y l Hl IH Hhd]; simpl.
  - repeat constructor.
  - destruct (le x y) eqn:E.
    + constructor; [now constructor |]. constructor. now rewrite E.
    + constructor; [exact IH |].
      apply le_total in E.
      destruct Hhd as [| z l' Hyz]; simpl.
      * constructor. now rewrite E.
      * destruct (le x z); constructor; [now rewrite E | exact Hyz].
Qed.

Lemma sorted_Sorted (l : list A) :
  Sorted (fun a b => Is_true (le a b)) (Py.sorted le l).
Proof.
  induction l as [| x l IH]; simpl; [constructor |].
  now apply insert_sorted_Sorted.
Qed.

End SortedFacts.

Lemma leb_total_false (s1 s2 : string) :
  String.leb s1 s2 = false -> String.leb s2 s1 = true.
Proof. intros H. destruct (String.leb_total s1 s2); congruence. Qed.

(** Sorting two arrangements of the same strings gives the same list. *)
Lemma sorted_strings_Permutation (l1 l2 : list string) :
  l1 ≡ₚ l2 -> Py.sorted String.leb l1 = Py.sorted String.leb l2.
Proof.
  intros Hp.
  apply (Sorted_unique String.le).
  - apply (sorted_Sorted String.leb leb_total_false).
  - apply (sorted_Sorted String.leb leb_total_false).
  - now rewrite !sorted_Permutation.
Qed.

(** ** Lengths of digests and slices *)

Lemma to_bytes_length (n : nat) (x : Z) : length (hashlib.to_bytes n x) = n.
Proof. revert x. induction n as [| n IH]; intros x; simpl; [| rewrite IH]; reflexivity. Qed.

Lemma md5_digest_length (msg : list Z) : length (hashlib.md5_digest msg) = 16%nat.
Proof.
  unfold hashlib.md5_digest.
  destruct (fold_left _ _ _) as [[[a b] c] d].
  rewrite !length_app, !to_bytes_length. reflexivity.
Qed.

Lemma hex_length (bytes : list Z) :
  String.length (hashlib.hex bytes) = (2 * length bytes)%nat.
Proof. induction bytes as [| b l IH]; simpl; [reflexivity | rewrite IH; lia]. Qed.

Lemma md5_hexdigest_length (data : list Z) :
  String.length (hashlib.md5_hexdigest data) = 32%nat.
Proof. unfold hashlib.md5_hexdigest. now rewrite hex_length, md5_digest_length. Qed.

Lemma str_take_length (n : nat) (s : string) :
  String.length (Py.take n s) = Nat.min n (String.length s).
Proof.
  unfold Py.take. revert s.
  induction n as [| n IH]; intros [| c s]; simpl; try reflexivity.
  now rewrite IH.
Qed.

Lemma str_take_prefix (n : nat) (s : string) : String.prefix (Py.take n s) s = true.
Proof.
  unfold Py.take. revert s.
  induction n as [| n IH]; intros [| c s]; simpl; try reflexivity.
  destruct (ascii_dec c c); [apply IH | congruence].
Qed.

(** ** Avatar seed *)

(** C8. For every name and every two lists of trait names that are
    permutations of each other, [generate_seed] returns the same seed,
    which has 10 characters: the first ten hexadecimal digits of the MD5
    digest of the name followed by the sorted trait names. *)
Theorem C8_generate_seed_order_independent
    (name : string) (traits1 traits2 : list string) :
  traits1 ≡ₚ traits2 ->
  AvatarGenerator.generate_seed name traits1
    = AvatarGenerator.generate_seed name traits2
  /\ String.length (AvatarGenerator.generate_seed name traits1) = 10%nat
  /\ AvatarGenerator.generate_seed name traits1
     = Py.take 10 (hashlib.md5_hexdigest (hashlib.encode
         (name +:+ Py.join "" (Py.sorted String.leb traits1)))).
Proof.
  intros Hp. unfold AvatarGenerator.generate_seed.
  rewrite (sorted_strings_Permutation traits1 traits2 Hp).
  split; [reflexivity |]. split; [| reflexivity].
  rewrite str_take_length, md5_hexdigest_length. reflexivity.
Qed.

Lemma C8_generate_seed_witness :
  ["Creative"; "Calm"] ≡ₚ ["Calm"; "Creative"] /\
  AvatarGenerator.generate_seed "Alice" ["Creative"; "Calm"]
    = AvatarGenerator.generate_seed "Alice" ["Calm"; "Creative"].
Proof.
  assert (["Creative"; "Calm"] ≡ₚ ["Calm"; "Creative"]) as Hp
    by apply Permutation_swap.
  split; [exact Hp |].
  exact (proj1 (C8_generate_seed_order_independent "Alice" _ _ Hp)).
Defined.

(** ** Avatar URL *)

Lemma append_cons (c : ascii) (s t : string) :
  String c s +:+ t = String c (s +:+ t).
Proof. reflexivity. Qed.

Lemma append_nil_r (s : string) : s +:+ "" = s.
Proof.
  induction s as [| c s IH]; [reflexivity |].
  now rewrite append_cons, IH.
Qed.

Lemma append_assoc (s1 s2 s3 : string) : (s1 +:+ s2) +:+ s3 = s1 +:+ s2 +:+ s3.
Proof.
  induction s1 as [| c s1 IH]; [reflexivity |].
  now rewrite !append_cons, IH.
Qed.

Lemma generate_seed_no_traits (name : string) :
  AvatarGenerator.generate_seed name []
  = Py.take 10 (hashlib.md5_hexdigest (hashlib.encode name)).
Proof.
  unfold AvatarGenerator.generate_seed.
  change (Py.join "" (Py.sorted String.leb [])) with "".
  now rewrite append_nil_r.
Qed.

(** C10. Called with no traits ([None] or an empty map),
    [generate_avatar_url] returns a URL of the usual shape: the style is
    the default 'avataaars', the seed is the one of the name with an
    empty trait list, and only the name and the emotion enter the URL. *)
Theorem C10_generate_avatar_url_no_traits (name emotion : string) :
  let seed := Py.take 10 (hashlib.md5_hexdigest (hashlib.encode name)) in
  let mood :=
    if String.eqb (Py.lower emotion) "happy" then "&mood[]=happy"
    else if String.eqb (Py.lower emotion) "sad" then "&mood[]=sad"
    else "" in
  AvatarGenerator.generate_avatar_url name None emotion
    = "https://api.dicebear.com/7.x/avataaars/svg?seed=" +:+ seed
      +:+ "&size=200&backgroundColor=b6e3f4,c0aede,d1d4f9" +:+ mood
  /\ AvatarGenerator.generate_avatar_url name (Some []) emotion
     = AvatarGenerator.generate_avatar_url name None emotion
  /\ AvatarGenerator.get_style_from_traits [] = "avataaars"
  /\ AvatarGenerator.generate_seed name (keys []) = seed
  /\ String.length seed = 10%nat.
Proof.
  intros seed mood.
  split; [| split; [reflexivity | split; [reflexivity | split]]].
  - unfold AvatarGenerator.generate_avatar_url.
    change (keys []) with (@nil string).
    rewrite generate_seed_no_traits. fold seed.
    change (AvatarGenerator.get_style_from_traits []) with "avataaars".
    subst mood.
    destruct (String.eqb (Py.lower emotion) "happy"); [reflexivity |].
    destruct (String.eqb (Py.lower emotion) "sad"); reflexivity.
  - apply generate_seed_no_traits.
  - subst seed. now rewrite str_take_length, md5_hexdigest_length.
Qed.

Example generate_avatar_url_default :
  AvatarGenerator.generate_avatar_url "user" None "neutral"
  = "https://api.dicebear.com/7.x/avataaars/svg?seed=ee11cbb190&size=200&backgroundColor=b6e3f4,c0aede,d1d4f9".
Proof. vm_compute. reflexivity. Qed.

Example generate_seed_alice :
  AvatarGenerator.generate_seed "Alice" ["Creative"; "Calm"] = "87afaa66a6".
Proof. vm_compute. reflexivity. Qed.

(** ** Sentiment label *)



(** ** The pipeline *)

Lemma too_short_gate (text : string) :
  Spec.too_short text <->
  String.eqb text "" || (Py.len (Py.strip text) <? 10)%Z = true.
Proof.
  unfold Spec.too_short. rewrite orb_true_iff, String.eqb_eq, Z.ltb_lt. split.
  - intros [-> | [-> | H]]; [left; reflexivity | right; reflexivity | now right].
  - intros [H | H]; [now left | now right; right].
Qed.

Lemma not_too_short_gate (text : string) :
  ~ Spec.too_short text ->
  String.eqb text "" || (Py.len (Py.strip text) <? 10)%Z = false.
Proof.
  intros H. apply not_true_is_false. now rewrite <- too_short_gate.
Qed.

(** C3. A text that is empty, only white space or shorter than 10
    characters once trimmed makes [process] return success=false with an
    error message, the call log unchanged: no analyzer was entered.  For
    every other text an exception of the analyzer is caught and returned
    as success=false with a message that ends in the exception's own; so
    [process] always returns a result and never raises. *)
Theorem C3_process_failure_boundary
    (self : NLPPipeline.t) (text : string) (log : list call) :
  (Spec.too_short text ->
   NLPPipeline.process self text log
   = (Ok (<["error" :=
              VStr "Text too short. Please provide at least 10 characters."]>
          (<["success" := VBool false]> ∅)), log))
  /\ (~ Spec.too_short text ->
      forall e log',
        NLPPipeline.analyzer_analyze_full self text log = (Raise e, log') ->
        NLPPipeline.process self text log
        = (Ok (<["error" := VStr ("Analysis failed: " +:+ str e)]>
              (<["success" := VBool false]> ∅)), log'))
  /\ (exists result log',
        NLPPipeline.process self text log = (Ok result, log')
        /\ is_Some (result !! "success")).
Proof.
  unfold NLPPipeline.process.
  destruct (String.eqb text "" || (Py.len (Py.strip text) <? 10)%Z) eqn:G.
  - split; [reflexivity |]. split.
    + intros H. apply not_too_short_gate in H. congruence.
    + eexists _, _. split; [reflexivity |].
      rewrite lookup_insert_ne by discriminate.
      rewrite lookup_insert_eq. eauto.
  - split.
    { intros H. apply too_short_gate in H. congruence. }
    unfold try_except, mbind, M_bind, mret, M_ret.
    destruct (NLPPipeline.analyzer_analyze_full self text log)
      as [[results | e] log1].
    + split; [discriminate |].
      eexists _, _. split; [reflexivity |].
      rewrite lookup_insert_ne by discriminate.
      rewrite lookup_insert_eq. eauto.
    + split.
      * intros _ e' log' [= -> ->]. reflexivity.
      * eexists _, _. split; [reflexivity |].
        rewrite lookup_insert_ne by discriminate.
        rewrite lookup_insert_eq. eauto.
Qed.

Lemma C3_process_failure_boundary_witness :
  Spec.too_short "  short  " /\
  NLPPipeline.process (NLPPipeline.init (fun _ => Raise (Exc "no corpus")))
    "  short  " []
  = (Ok (<["error" :=
             VStr "Text too short. Please provide at least 10 characters."]>
         (<["success" := VBool false]> ∅)), []).
Proof.
  assert (Spec.too_short "  short  ") as H.
  { right; right. vm_compute. reflexivity. }
  split; [exact H |].
  exact (proj1 (C3_process_failure_boundary
                  (NLPPipeline.init (fun _ => Raise (Exc "no corpus")))
                  "  short  " []) H).
Defined.

(** The real analyzer does leave its mark in the log when it is called,
    also when it fails. *)
Example process_enters_analyzer :
  NLPPipeline.process (NLPPipeline.init (fun _ => Raise (Exc "no corpus")))
    "long enough text" []
  = (Ok (<["error" := VStr "Analysis failed: no corpus"]>
        (<["success" := VBool false]> ∅)),
     [Call "analyze_full" "long enough text";
      Call "analyze_sentiment" "long enough text";
      Call "TextBlob" "long enough text"]).
Proof. vm_compute. reflexivity. Qed.

(** C9. When the text passes the length gate and the analysis succeeds,
    the result of [process] is the analyzer's result with success=true
    and with 'processed_text', the first 500 characters of the text as
    it was given (not trimmed). *)
Theorem C9_process_processed_text
    (self : NLPPipeline.t) (text : string) (log log' : list call)
    (results : gmap string value) :
  ~ Spec.too_short text ->
  NLPPipeline.analyzer_analyze_full self text log = (Ok results, log') ->
  exists result,
    NLPPipeline.process self text log = (Ok result, log')
    /\ result !! "processed_text" = Some (VStr (Py.take 500 text))
    /\ result !! "success" = Some (VBool true)
    /\ (forall k, k <> "processed_text" -> k <> "success" ->
        result !! k = results !! k)
    /\ String.prefix (Py.take 500 text) text = true
    /\ String.length (Py.take 500 text)
       = Nat.min 500 (String.length text).
Proof.
  intros G Hrun. unfold NLPPipeline.process.
  rewrite (not_too_short_gate text G).
  unfold try_except, mbind, M_bind, mret, M_ret. rewrite Hrun.
  eexists. split; [reflexivity |].
  split; [apply lookup_insert_eq |].
  split; [rewrite lookup_insert_ne by discriminate; apply lookup_insert_eq |].
  split; [| split; [apply str_take_prefix | apply str_take_length]].
  intros k H1 H2. now rewrite !lookup_insert_ne by congruence.
Qed.

Lemma C9_process_processed_text_witness :
  ~ Spec.too_short "  I love exploring new places!  " /\
  exists result log',
    NLPPipeline.process (NLPPipeline.init (fun _ => Ok (1 # 2, 3 # 5)%Q))
      "  I love exploring new places!  " [] = (Ok result, log')
    /\ result !! "processed_text"
       = Some (VStr "  I love exploring new places!  ")
    /\ result !! "success" = Some (VBool true).
Proof.
  set (self := NLPPipeline.init (fun _ => Ok (1 # 2, 3 # 5)%Q)).
  set (text := "  I love exploring new places!  ").
  assert (~ Spec.too_short text) as G.
  { intros [H | [H | H]]; [discriminate H | discriminate H |].
    vm_compute in H. discriminate H. }
  split; [exact G |].
  destruct (NLPPipeline.analyzer_analyze_full self text [])
    as [[results | e] log'] eqn:Hrun; [| vm_compute in Hrun; discriminate Hrun].
  destruct (C9_process_processed_text self text [] log' results G Hrun)
    as (result & Hp & Htext & Hsucc & _).
  exists result, log'. split; [exact Hp |]. split; [exact Htext | exact Hsucc].
Defined.

(** ** Trimming does not change what the scan sees *)

Lemma prefix_nil (s : string) : String.prefix "" s = true.
Proof. now destruct s. Qed.

Lemma prefix_cons (c c' : ascii) (sub s : string) :
  String.prefix (String c sub) (String c' s)
  = if ascii_dec c c' then String.prefix sub s else false.
Proof. reflexivity. Qed.

Lemma prefix_spec (sub s : string) :
  String.prefix sub s = true <-> exists post, s = sub +:+ post.
Proof.
  revert s. induction sub as [| c sub IH]; intros s.
  - rewrite prefix_nil. split; [intros _; now exists s | reflexivity].
  - destruct s as [| c' s].
    + split; [discriminate | intros [post H]; discriminate H].
    + rewrite prefix_cons. destruct (ascii_dec c c') as [-> | Hne].
      * rewrite IH. split; intros [post H]; exists post.
        -- now rewrite append_cons, H.
        -- rewrite append_cons in H. now injection H.
      * split; [discriminate |].
        intros [post H]. rewrite append_cons in H. injection H as H1 H2.
        congruence.
Qed.

Lemma contains_cons (sub s : string) (c : ascii) :
  Py.contains sub (String c s)
  = String.prefix sub (String c s) || Py.contains sub s.
Proof. reflexivity. Qed.

Lemma contains_empty (sub : string) :
  Py.contains sub "" = String.prefix sub "".
Proof. unfold Py.contains. apply orb_false_r. Qed.

(** [contains] decides the occurrence of a substring. *)
Lemma contains_spec (sub s : string) :
  Py.contains sub s = true <-> Spec.substring_of sub s.
Proof.
  unfold Spec.substring_of. induction s as [| c s IH].
  - rewrite contains_empty, prefix_spec. split.
    + intros [post H]. now exists "", post.
    + intros (pre & post & H). destruct pre; [| discriminate H].
      now exists post.
  - rewrite contains_cons, orb_true_iff, IH, prefix_spec. split.
    + intros [[post H] | (pre & post & H)].
      * now exists "", post.
      * exists (String c pre), post. now rewrite append_cons, H.
    + intros (pre & post & H). destruct pre as [| c' pre].
      * left. now exists post.
      * right. rewrite append_cons in H. injection H as _ H.
        now exists pre, post.
Qed.

Lemma prefix_space (sub s : string) (c : ascii) :
  Spec.plain sub = true -> Py.isspace c = true ->
  String.prefix sub (String c s) = false.
Proof.
  destruct sub as [| c0 sub]; [discriminate |].
  unfold Spec.plain. rewrite prefix_cons. simpl. intros H Hc.
  destruct (ascii_dec c0 c) as [-> | _]; [| reflexivity].
  rewrite Hc in H. discriminate H.
Qed.

Lemma contains_nil (sub : string) :
  Spec.plain sub = true -> Py.contains sub "" = false.
Proof. destruct sub; [discriminate | reflexivity]. Qed.

Lemma rstrip_cons (c : ascii) (s : string) :
  Py.rstrip (String c s)
  = if String.eqb (Py.rstrip s) "" && Py.isspace c then ""
    else String c (Py.rstrip s).
Proof.
  simpl. destruct (Py.rstrip s); simpl; [| reflexivity].
  destruct (Py.isspace c); reflexivity.
Qed.

Lemma prefix_rstrip (sub s : string) :
  Spec.no_space sub = true ->
  String.prefix sub (Py.rstrip s) = String.prefix sub s.
Proof.
  revert sub. induction s as [| c s IH]; intros sub Hsub; [reflexivity |].
  destruct sub as [| c0 sub]; [now rewrite !prefix_nil |].
  simpl in Hsub. apply andb_true_iff in Hsub as [Hc0 Hsub].
  rewrite rstrip_cons.
  destruct (String.eqb (Py.rstrip s) "" && Py.isspace c) eqn:E.
  - apply andb_true_iff in E as [_ Hc]. rewrite prefix_cons.
    destruct (ascii_dec c0 c) as [-> | _]; [| reflexivity].
    rewrite Hc in Hc0. discriminate Hc0.
  - rewrite !prefix_cons.
    destruct (ascii_dec c0 c); [now apply IH | reflexivity].
Qed.

Lemma contains_rstrip (sub s : string) :
  Spec.plain sub = true -> Py.contains sub (Py.rstrip s) = Py.contains sub s.
Proof.
  intros Hsub. induction s as [| c s IH]; [reflexivity |].
  assert (Spec.no_space sub = true) as Hns
    by (unfold Spec.plain in Hsub; now apply andb_true_iff in Hsub).
  rewrite rstrip_cons.
  destruct (String.eqb (Py.rstrip s) "" && Py.isspace c) eqn:E.
  - apply andb_true_iff in E as [Hr Hc]. apply String.eqb_eq in Hr.
    rewrite Hr in IH.
    now rewrite contains_cons, <- IH, prefix_space.
  - rewrite !contains_cons, IH. f_equal.
    rewrite <- (prefix_rstrip sub (String c s) Hns), rstrip_cons, E.
    reflexivity.
Qed.

Lemma contains_lstrip (sub s : string) :
  Spec.plain sub = true -> Py.contains sub (Py.lstrip s) = Py.contains sub s.
Proof.
  intros Hsub. induction s as [| c s IH]; [reflexivity |].
  simpl Py.lstrip. destruct (Py.isspace c) eqn:Hc; [| reflexivity].
  now rewrite contains_cons, prefix_space.
Qed.

Lemma contains_strip (sub s : string) :
  Spec.plain sub = true -> Py.contains sub (Py.strip s) = Py.contains sub s.
Proof.
  intros H. unfold Py.strip. now rewrite contains_rstrip, contains_lstrip.
Qed.

Lemma split_go_rstrip (s : string) (cur : option string) :
  Py.split_go cur (Py.rstrip s) = Py.split_go cur s.
Proof.
  revert cur. induction s as [| c s IH]; intros cur; [reflexivity |].
  rewrite rstrip_cons.
  destruct (String.eqb (Py.rstrip s) "" && Py.isspace c) eqn:E.
  - apply andb_true_iff in E as [Hr Hc]. apply String.eqb_eq in Hr.
    simpl. rewrite Hc, <- IH, Hr. simpl. now rewrite app_nil_r.
  - simpl. destruct (Py.isspace c); now rewrite IH.
Qed.

Lemma split_lstrip (s : string) : Py.split (Py.lstrip s) = Py.split s.
Proof.
  unfold Py.split. induction s as [| c s IH]; [reflexivity |].
  simpl. destruct (Py.isspace c) eqn:Hc; [exact IH |].
  simpl. now rewrite Hc.
Qed.

Lemma split_strip (s : string) : Py.split (Py.strip s) = Py.split s.
Proof.
  unfold Py.strip, Py.split at 1. rewrite split_go_rstrip. apply split_lstrip.
Qed.

(** ** The scoring loops *)

Lemma dict_set_fresh (k : string) (v : Q) (d : scores) :
  k ∉ keys d -> dict_set k v d = d ++ [(k, v)].
Proof.
  induction d as [| [k' v'] d IH]; intros Hk; [reflexivity |].
  simpl. unfold keys in Hk. rewrite fmap_cons, not_elem_of_cons in Hk.
  destruct Hk as [Hne Hk]. simpl in Hne.
  destruct (String.eqb_spec k k') as [-> | _]; [contradiction |].
  now rewrite IH.
Qed.

Lemma dict_of_items_loop (items acc : scores) :
  NoDup (keys acc ++ keys items) ->
  fold_left (fun d kv => dict_set kv.1 kv.2 d) items acc = acc ++ items.
Proof.
  revert acc. induction items as [| [k v] items IH]; intros acc Hnd; simpl.
  - now rewrite app_nil_r.
  - unfold keys in Hnd. rewrite fmap_cons in Hnd. simpl in Hnd.
    rewrite dict_set_fresh.
    + rewrite IH.
      * now rewrite <- app_assoc.
      * unfold keys. rewrite fmap_app, <- app_assoc. exact Hnd.
    + apply NoDup_app in Hnd as (_ & Hdisj & _).
      intros Hin. apply (Hdisj k Hin). constructor.
Qed.

(** [dict(items)] of pairs with distinct keys is the same sequence. *)
Lemma dict_of_items_NoDup (items : scores) :
  NoDup (keys items) -> dict_of_items items = items.
Proof. intros H. unfold dict_of_items. now rewrite dict_of_items_loop. Qed.

Lemma raw_score_cons (text k : string) (ks : list string) :
  Spec.raw_score text (k :: ks)
  = (Spec.points text k + Spec.raw_score text ks)%Z.
Proof. reflexivity. Qed.

Lemma matches_cons (text k : string) (ks : list string) :
  Spec.matches text (k :: ks)
  = ((if Spec.occurs text k then 1 else 0) + Spec.matches text ks)%Z.
Proof.
  unfold Spec.matches. rewrite filter_cons.
  destruct (decide (Spec.occurs text k = true)) as [E | E].
  - rewrite E. simpl length. lia.
  - apply not_true_is_false in E. now rewrite E.
Qed.

Lemma matches_nonneg (text : string) (ks : list string) :
  (0 <= Spec.matches text ks)%Z.
Proof. unfold Spec.matches. lia. Qed.

Lemma raw_score_nonneg (text : string) (ks : list string) :
  (0 <= Spec.raw_score text ks)%Z.
Proof.
  induction ks as [| k ks IH]; [now compute |].
  rewrite raw_score_cons. unfold Spec.points.
  destruct (Spec.occurs text k), (Spec.is_token text k); lia.
Qed.

(** The inner loop computes the raw score and the number of matches. *)
Lemma scan_keywords_spec (text : string) (ks : list string) (score matches : Z) :
  Forall (fun k => Spec.plain k = true) ks ->
  fold_left (PersonalityAnalyzer.scan_keyword
               (PersonalityAnalyzer.clean_text text)
               (Py.split (PersonalityAnalyzer.clean_text text)))
            ks (score, matches)
  = ((score + Spec.raw_score text ks)%Z, (matches + Spec.matches text ks)%Z).
Proof.
  intros Hks. revert score matches.
  induction Hks as [| k ks Hk Hks IH]; intros score matches.
  - unfold Spec.raw_score, Spec.matches. simpl. f_equal; lia.
  - rewrite raw_score_cons, matches_cons. simpl fold_left.
    assert (Py.contains k (PersonalityAnalyzer.clean_text text)
            = Spec.occurs text k) as ->
      by (unfold PersonalityAnalyzer.clean_text; now rewrite contains_strip).
    assert (Py.elem k (Py.split (PersonalityAnalyzer.clean_text text))
            = Spec.is_token text k) as ->
      by (unfold PersonalityAnalyzer.clean_text; now rewrite split_strip).
    unfold Spec.points.
    destruct (Spec.occurs text k); [destruct (Spec.is_token text k) |];
      rewrite IH; f_equal; lia.
Qed.

(** The body of the outer loop, in the words of the specification. *)
Lemma scan_trait_spec (text trait : string) (ks : list string) (acc : scores) :
  Forall (fun k => Spec.plain k = true) ks ->
  PersonalityAnalyzer.scan_trait
    (PersonalityAnalyzer.clean_text text)
    (Py.split (PersonalityAnalyzer.clean_text text)) acc (trait, ks)
  = if (0 <? Spec.matches text ks)%Z
    then dict_set trait (Spec.confidence text ks) acc else acc.
Proof.
  intros Hks. unfold PersonalityAnalyzer.scan_trait.
  rewrite (scan_keywords_spec text ks 0 0 Hks), !Z.add_0_l.
  reflexivity.
Qed.

Lemma keys_omap_score_entry (text : string) (entries : list (string * list string)) :
  keys (omap (Spec.score_entry text) entries) `sublist_of` entries.*1.
Proof.
  induction entries as [| [t ks] entries IH]; simpl; [constructor |].
  unfold Spec.score_entry at 1. simpl.
  destruct (0 <? Spec.matches text ks)%Z; simpl.
  - now apply sublist_skip.
  - now apply sublist_cons.
Qed.

Lemma traits_loop (text : string) (entries : list (string * list string))
    (acc : scores) :
  Forall (fun e => Forall (fun k => Spec.plain k = true) e.2) entries ->
  NoDup (keys acc ++ entries.*1) ->
  fold_left (PersonalityAnalyzer.scan_trait
               (PersonalityAnalyzer.clean_text text)
               (Py.split (PersonalityAnalyzer.clean_text text)))
            entries acc
  = acc ++ omap (Spec.score_entry text) entries.
Proof.
  intros Hplain. revert acc.
  induction Hplain as [| [t ks] entries Hks Hplain IH]; intros acc Hnd.
  - simpl. now rewrite app_nil_r.
  - cbn [fold_left]. rewrite (scan_trait_spec text t ks acc Hks).
    cbn [omap list_omap]. unfold Spec.score_entry at 1. cbn [fst snd].
    rewrite fmap_cons in Hnd. simpl in Hnd.
    destruct (0 <? Spec.matches text ks)%Z.
    + rewrite dict_set_fresh.
      * rewrite IH; [now rewrite <- app_assoc |].
        unfold keys. rewrite fmap_app, <- app_assoc. exact Hnd.
      * apply NoDup_app in Hnd as (_ & Hdisj & _).
        intros Hin. apply (Hdisj t Hin). constructor.
    + apply IH.
      apply NoDup_app in Hnd as (H1 & H2 & H3).
      apply NoDup_app. split; [exact H1 |]. split.
      * intros x Hx Hx'. apply (H2 x Hx). now constructor.
      * now apply NoDup_cons in H3 as [_ H3].
Qed.

Lemma catalog_plain :
  Forall (fun e : string * list string => Forall (fun k => Spec.plain k = true) e.2)
         PersonalityAnalyzer.TRAIT_KEYWORDS.
Proof. apply (bool_decide_unpack _). vm_compute. exact I. Qed.

Lemma catalog_NoDup : NoDup (PersonalityAnalyzer.TRAIT_KEYWORDS.*1).
Proof. apply (bool_decide_unpack _). vm_compute. exact I. Qed.

(** After the two loops [trait_scores] holds the matched traits. *)
Lemma scoring_loop (text : string) :
  fold_left (PersonalityAnalyzer.scan_trait
               (PersonalityAnalyzer.clean_text text)
               (Py.split (PersonalityAnalyzer.clean_text text)))
            PersonalityAnalyzer.TRAIT_KEYWORDS []
  = Spec.matched text.
Proof.
  rewrite traits_loop; [reflexivity | apply catalog_plain | apply catalog_NoDup].
Qed.

(** ** What [extract_traits] returns *)

Lemma matched_keys_NoDup (text : string) : NoDup (keys (Spec.matched text)).
Proof.
  eapply sublist_NoDup; [apply catalog_NoDup | apply keys_omap_score_entry].
Qed.

Lemma top_five_keys_NoDup (text : string) :
  NoDup (keys (take 5 (PersonalityAnalyzer.sorted_by_score_desc
                         (Spec.matched text)))).
Proof.
  unfold keys. rewrite fmap_take.
  eapply sublist_NoDup; [| apply sublist_take].
  unfold PersonalityAnalyzer.sorted_by_score_desc.
  rewrite sorted_Permutation. apply matched_keys_NoDup.
Qed.

(** Some trait has a match: the result is the five best of them. *)
Lemma extract_traits_matched
    (sentiment : string -> Result (Q * Q)) (text : string) (log : list call) :
  Spec.matched text <> [] ->
  PersonalityAnalyzer.extract_traits sentiment text log
  = (Ok (take 5 (PersonalityAnalyzer.sorted_by_score_desc (Spec.matched text))),
     log ++ [Call "extract_traits" text]).
Proof.
  intros Hne. unfold PersonalityAnalyzer.extract_traits.
  rewrite scoring_loop.
  pose proof (top_five_keys_NoDup text) as Hnd.
  destruct (Spec.matched text) as [| kv rest] eqn:E; [contradiction |].
  unfold enter, mbind, M_bind, mret, M_ret.
  now rewrite dict_of_items_NoDup.
Qed.

(** No trait has a match: the sentiment of the raw text decides. *)
Lemma extract_traits_fallback
    (sentiment : string -> Result (Q * Q)) (text : string) (log : list call) :
  Spec.matched text = [] ->
  PersonalityAnalyzer.extract_traits sentiment text log
  = (match sentiment text with
     | Ok blob =>
         Ok (if Qltb 0 blob.1 then [("Optimistic", 60%Q)] else [("Calm", 50%Q)])
     | Raise e => Raise e
     end,
     (log ++ [Call "extract_traits" text]) ++ [Call "TextBlob" text]).
Proof.
  intros E. unfold PersonalityAnalyzer.extract_traits.
  rewrite scoring_loop, E.
  unfold PersonalityAnalyzer.TextBlob, enter, mbind, M_bind, mret, M_ret.
  destruct (sentiment text) as [[polarity subjectivity] | e]; [| reflexivity].
  cbn [fst]. destruct (Qltb 0 polarity); reflexivity.
Qed.

(** No trait is matched exactly when no keyword of any trait occurs. *)
Lemma matched_nil (text : string) :
  Spec.matched text = [] <->
  forall trait keywords,
    (trait, keywords) ∈ PersonalityAnalyzer.TRAIT_KEYWORDS ->
    Spec.matches text keywords = 0%Z.
Proof.
  unfold Spec.matched.
  induction PersonalityAnalyzer.TRAIT_KEYWORDS as [| [t ks] entries IH].
  - split; [| reflexivity]. intros _ trait keywords H. inversion H.
  - cbn [omap list_omap]. unfold Spec.score_entry at 1. cbn [fst snd].
    pose proof (matches_nonneg text ks) as Hge.
    destruct (0 <? Spec.matches text ks)%Z eqn:Em.
    + split; [discriminate |]. intros H.
      assert ((t, ks) ∈ (t, ks) :: entries) as Hin
        by (rewrite elem_of_cons; now left).
      specialize (H t ks Hin). apply Z.ltb_lt in Em. lia.
    + rewrite IH. apply Z.ltb_ge in Em. split.
      * intros H trait keywords Hin. apply elem_of_cons in Hin as [[= -> ->] | Hin].
        -- lia.
        -- now apply (H trait).
      * intros H trait keywords Hin. apply (H trait).
        rewrite elem_of_cons. now right.
Qed.

(** C4. When no trait accumulates any keyword match, [extract_traits]
    returns exactly one trait: "Optimistic" with confidence 60.0 if the
    sentiment polarity of the raw text is strictly positive, else "Calm"
    with confidence 50.0. *)
Theorem C4_extract_traits_fallback
    (sentiment : string -> Result (Q * Q)) (text : string)
    (polarity subjectivity : Q) :
  (forall trait keywords,
     (trait, keywords) ∈ PersonalityAnalyzer.TRAIT_KEYWORDS ->
     Spec.matches text keywords = 0%Z) ->
  sentiment text = Ok (polarity, subjectivity) ->
  ((0 < polarity)%Q ->
   eval (PersonalityAnalyzer.extract_traits sentiment text)
   = Ok [("Optimistic", 60%Q)])
  /\ ((polarity <= 0)%Q ->
      eval (PersonalityAnalyzer.extract_traits sentiment text)
      = Ok [("Calm", 50%Q)]).
Proof.
  intros Hnone Hs. apply matched_nil in Hnone.
  unfold eval. rewrite (extract_traits_fallback sentiment text [] Hnone), Hs.
  cbn [fst]. split; intros Hp.
  - apply Qltb_lt in Hp. now rewrite Hp.
  - apply Qltb_ge in Hp. now rewrite Hp.
Qed.

Lemma C4_extract_traits_fallback_witness :
  (forall trait keywords,
     (trait, keywords) ∈ PersonalityAnalyzer.TRAIT_KEYWORDS ->
     Spec.matches "xyz qqq zzz wwwww" keywords = 0%Z)
  /\ (0 <= 0)%Q
  /\ eval (PersonalityAnalyzer.extract_traits (fun _ => Ok (0%Q, 0%Q))
             "xyz qqq zzz wwwww")
     = Ok [("Calm", 50%Q)].
Proof.
  assert (forall trait keywords,
            (trait, keywords) ∈ PersonalityAnalyzer.TRAIT_KEYWORDS ->
            Spec.matches "xyz qqq zzz wwwww" keywords = 0%Z) as Hnone.
  { intros trait keywords Hin.
    assert (Forall (fun e : string * list string =>
                      Spec.matches "xyz qqq zzz wwwww" e.2 = 0%Z)
                   PersonalityAnalyzer.TRAIT_KEYWORDS) as F
      by (apply (bool_decide_unpack _); vm_compute; exact I).
    rewrite Forall_forall in F. exact (F (trait, keywords) Hin). }
  assert (0 <= 0)%Q as Hle by (unfold Qle; simpl; lia).
  split; [exact Hnone |]. split; [exact Hle |].
  exact (proj2 (C4_extract_traits_fallback (fun _ => Ok (0%Q, 0%Q))
                  "xyz qqq zzz wwwww" 0 0 Hnone eq_refl) Hle).
Defined.

(** ** Rounding keeps a value between whole bounds *)

Lemma round_half_even_bounds (y : Q) (a b : Z) :
  (inject_Z a <= y)%Q -> (y <= inject_Z b)%Q ->
  (a <= Py.round_half_even y <= b)%Z.
Proof.
  intros Ha Hb.
  assert (a <= Qfloor y)%Z as Hfa
    by (rewrite <- (Qfloor_Z a); now apply Qfloor_resp_le).
  assert (Qfloor y <= b)%Z as Hfb
    by (rewrite <- (Qfloor_Z b); now apply Qfloor_resp_le).
  assert ((inject_Z (Qfloor y) < y)%Q -> (Qfloor y + 1 <= b)%Z) as Hup.
  { intros Hlt. assert (Qfloor y < b)%Z; [| lia].
    rewrite Zlt_Qlt. eapply Qlt_le_trans; eassumption. }
  unfold Py.round_half_even.
  destruct (Qcompare_spec (y - inject_Z (Qfloor y)) (1 # 2)) as [E | E | E].
  - destruct (Z.even (Qfloor y)); [lia |].
    split; [lia |]. apply Hup. lra.
  - lia.
  - split; [lia |]. apply Hup. lra.
Qed.

Lemma round_bounds (q : Q) (ndigits : nat) (a b : Z) :
  (inject_Z a <= q)%Q -> (q <= inject_Z b)%Q ->
  (inject_Z a <= Py.round q ndigits)%Q /\ (Py.round q ndigits <= inject_Z b)%Q.
Proof.
  intros Ha Hb. unfold Py.round.
  set (p := (10 ^ Z.of_nat ndigits)%Z).
  assert (0 < p)%Z as Hp by (subst p; apply Z.pow_pos_nonneg; lia).
  assert (0 < inject_Z p)%Q as HpQ
    by (change 0%Q with (inject_Z 0); now rewrite <- Zlt_Qlt).
  destruct (round_half_even_bounds (q * inject_Z p) (a * p) (b * p))
    as [Hlo Hhi].
  - rewrite inject_Z_mult. apply Qmult_le_compat_r; [exact Ha |].
    now apply Qlt_le_weak.
  - rewrite inject_Z_mult. apply Qmult_le_compat_r; [exact Hb |].
    now apply Qlt_le_weak.
  - rewrite Qred_correct. split.
    + apply Qle_shift_div_l; [exact HpQ |].
      rewrite <- inject_Z_mult, <- Zle_Qle. exact Hlo.
    + apply Qle_shift_div_r; [exact HpQ |].
      rewrite <- inject_Z_mult, <- Zle_Qle. exact Hhi.
Qed.

(** A confidence lies between 0 and 100. *)
Lemma confidence_range (text : string) (keywords : list string) :
  (0 <= Spec.confidence text keywords)%Q /\
  (Spec.confidence text keywords <= 100)%Q.
Proof.
  unfold Spec.confidence.
  apply (round_bounds _ 1 0 100).
  - apply Q.min_glb; [unfold Qle; simpl; lia |].
    assert (0 <= inject_Z (Spec.raw_score text keywords)
                 / inject_Z (Z.of_nat (length keywords)))%Q as H.
    { apply Qmult_le_0_compat.
      - change 0%Q with (inject_Z 0). rewrite <- Zle_Qle.
        apply raw_score_nonneg.
      - apply Qinv_le_0_compat.
        change 0%Q with (inject_Z 0). rewrite <- Zle_Qle. lia. }
    change (inject_Z 0) with 0%Q. lra.
  - apply Q.le_min_l.
Qed.

Lemma matched_values_range (text : string) :
  Forall (fun c : Q => (0 <= c)%Q /\ (c <= 100)%Q) (Spec.matched text).*2.
Proof.
  apply Forall_forall. intros c Hc.
  apply list_elem_of_fmap in Hc as ([t c'] & -> & Hin).
  unfold Spec.matched in Hin.
  apply list_elem_of_omap in Hin as ([t' ks] & _ & Hentry).
  unfold Spec.score_entry in Hentry. cbn [fst snd] in Hentry.
  destruct (0 <? Spec.matches text ks)%Z; [| discriminate Hentry].
  injection Hentry as _ <-. apply confidence_range.
Qed.

(** ** Order and size of the result *)

Lemma before_desc_le (x y : string * Q) : Spec.before_desc x y <-> (y.2 <= x.2)%Q.
Proof. unfold Spec.before_desc. now rewrite Is_true_true, Qleb_le. Qed.

#[local] Instance before_desc_trans : Transitive Spec.before_desc.
Proof.
  intros x y z. rewrite !before_desc_le. intros H1 H2.
  eapply Qle_trans; eassumption.
Qed.

Lemma sorted_by_score_desc_Sorted (d : scores) :
  StronglySorted Spec.before_desc (PersonalityAnalyzer.sorted_by_score_desc d).
Proof.
  apply Sorted_StronglySorted; [apply before_desc_trans |].
  apply (sorted_Sorted (fun x y : string * Q => Qleb y.2 x.2)).
  intros x y. apply Qleb_total.
Qed.

Lemma StronglySorted_take {A} (R : relation A) (n : nat) (l : list A) :
  StronglySorted R l -> StronglySorted R (take n l).
Proof.
  intros H. rewrite <- (take_drop n l) in H.
  now apply StronglySorted_app_1_l in H.
Qed.

Lemma top_five_descending (d : scores) :
  StronglySorted (fun c1 c2 : Q => (c2 <= c1)%Q)
    (take 5 (PersonalityAnalyzer.sorted_by_score_desc d)).*2.
Proof.
  apply (StronglySorted_fmap snd Spec.before_desc).
  - intros x y. apply before_desc_le.
  - apply StronglySorted_take, sorted_by_score_desc_Sorted.
Qed.

(** C5. The map returned by [extract_traits] is not empty, has at most
    5 entries and no trait name twice, is in descending order of
    confidence, and every confidence lies in [0,100].  A map is returned
    whenever the sentiment capability answers. *)
Theorem C5_extract_traits_invariants
    (sentiment : string -> Result (Q * Q)) (text : string) :
  (forall blob, sentiment text = Ok blob ->
     exists result,
       eval (PersonalityAnalyzer.extract_traits sentiment text) = Ok result)
  /\ (forall result,
        eval (PersonalityAnalyzer.extract_traits sentiment text) = Ok result ->
        result <> []
        /\ (length result <= 5)%nat
        /\ NoDup (keys result)
        /\ StronglySorted (fun c1 c2 : Q => (c2 <= c1)%Q) (result.*2)
        /\ Forall (fun c : Q => (0 <= c)%Q /\ (c <= 100)%Q) (result.*2)).
Proof.
  unfold eval.
  destruct (Spec.matched text) as [| kv rest] eqn:E.
  - rewrite (extract_traits_fallback sentiment text [] E). cbn [fst]. split.
    + intros blob ->. eauto.
    + intros result Hres.
      destruct (sentiment text) as [[polarity subjectivity] | e];
        [| discriminate Hres].
      injection Hres as <-. cbn [fst].
      destruct (Qltb 0 polarity);
        (split; [discriminate |]; split; [simpl; lia |];
         split; [apply (bool_decide_unpack _); vm_compute; exact I |];
         split; [repeat constructor |];
         repeat constructor; unfold Qle; simpl; lia).
  - assert (Spec.matched text <> []) as Hne by (rewrite E; discriminate).
    rewrite (extract_traits_matched sentiment text [] Hne). cbn [fst]. split.
    + intros _ _. eauto.
    + intros result [= <-].
      split; [| split; [| split; [| split]]].
      * intros Hnil. apply (f_equal length) in Hnil.
        rewrite length_take in Hnil.
        unfold PersonalityAnalyzer.sorted_by_score_desc in Hnil.
        rewrite sorted_length, E in Hnil. simpl in Hnil. lia.
      * rewrite length_take. lia.
      * apply top_five_keys_NoDup.
      * apply top_five_descending.
      * rewrite fmap_take.
        apply Forall_take.
        unfold PersonalityAnalyzer.sorted_by_score_desc.
        rewrite sorted_Permutation. apply matched_values_range.
Qed.

Lemma C5_extract_traits_invariants_witness :
  exists result,
    eval (PersonalityAnalyzer.extract_traits (fun _ => Ok (1 # 2, 3 # 5)%Q)
            "I love exploring new places and meeting people")
    = Ok result
    /\ result <> [] /\ (length result <= 5)%nat /\ NoDup (keys result).
Proof.
  destruct (proj1 (C5_extract_traits_invariants (fun _ => Ok (1 # 2, 3 # 5)%Q)
                     "I love exploring new places and meeting people")
                  _ eq_refl) as [result Hrun].
  destruct (proj2 (C5_extract_traits_invariants (fun _ => Ok (1 # 2, 3 # 5)%Q)
                     "I love exploring new places and meeting people")
                  result Hrun) as (Hne & Hlen & Hnd & _).
  exists result. split; [exact Hrun |]. split; [exact Hne |].
  split; [exact Hlen | exact Hnd].
Defined.

(** ** Which traits are in the result, and with what confidence *)

Lemma NoDup_fst_functional {A B} (l : list (A * B)) (k : A) (v1 v2 : B) :
  NoDup l.*1 -> (k, v1) ∈ l -> (k, v2) ∈ l -> v1 = v2.
Proof.
  induction l as [| [k' v'] l IH]; intros Hnd H1 H2; [inversion H1 |].
  rewrite fmap_cons in Hnd. apply NoDup_cons in Hnd as [Hk Hnd].
  cbn [fst] in Hk.
  apply elem_of_cons in H1 as [E1 | H1];
    apply elem_of_cons in H2 as [E2 | H2]; simplify_eq.
  - reflexivity.
  - exfalso. apply Hk. apply list_elem_of_fmap. now exists (k', v2).
  - exfalso. apply Hk. apply list_elem_of_fmap. now exists (k', v1).
  - now apply IH.
Qed.

Lemma dict_get_NoDup (d : scores) (k : string) (v : Q) :
  NoDup (keys d) -> (k, v) ∈ d -> dict_get k d = Some v.
Proof.
  induction d as [| [k' v'] d IH]; intros Hnd Hin; [inversion Hin |].
  simpl. destruct (String.eqb_spec k k') as [-> | Hne].
  - f_equal. eapply (NoDup_fst_functional _ k'); [exact Hnd | | exact Hin].
    rewrite elem_of_cons. now left.
  - apply elem_of_cons in Hin as [[= ? ?] | Hin]; [congruence |].
    apply IH; [| exact Hin].
    unfold keys in Hnd. rewrite fmap_cons in Hnd.
    now apply NoDup_cons in Hnd as [_ Hnd].
Qed.

(** A trait of the catalogue is among the matched ones, with its
    confidence, exactly when one of its keywords occurs. *)
Lemma elem_of_matched (text trait : string) (keywords : list string) (c : Q) :
  (trait, keywords) ∈ PersonalityAnalyzer.TRAIT_KEYWORDS ->
  (trait, c) ∈ Spec.matched text <->
  (0 < Spec.matches text keywords)%Z /\ c = Spec.confidence text keywords.
Proof.
  intros Hin. unfold Spec.matched. rewrite list_elem_of_omap. split.
  - intros ([t ks] & Hin' & Hentry).
    unfold Spec.score_entry in Hentry. cbn [fst snd] in Hentry.
    destruct (0 <? Spec.matches text ks)%Z eqn:Em; [| discriminate Hentry].
    injection Hentry as -> <-.
    assert (ks = keywords) as ->
      by (eapply NoDup_fst_functional;
          [apply catalog_NoDup | exact Hin' | exact Hin]).
    split; [now apply Z.ltb_lt | reflexivity].
  - intros [Hm ->]. exists (trait, keywords). split; [exact Hin |].
    unfold Spec.score_entry. cbn [fst snd].
    apply Z.ltb_lt in Hm. now rewrite Hm.
Qed.

Lemma matched_keys_in_catalog (text trait : string) :
  trait ∈ keys (Spec.matched text) ->
  exists keywords,
    (trait, keywords) ∈ PersonalityAnalyzer.TRAIT_KEYWORDS
    /\ (0 < Spec.matches text keywords)%Z.
Proof.
  intros Hin. apply list_elem_of_fmap in Hin as ([t c] & -> & Hin).
  unfold Spec.matched in Hin.
  apply list_elem_of_omap in Hin as ([t' ks] & Hin' & Hentry).
  unfold Spec.score_entry in Hentry. cbn [fst snd] in Hentry.
  destruct (0 <? Spec.matches text ks)%Z eqn:Em; [| discriminate Hentry].
  injection Hentry as -> _. exists ks. split; [exact Hin' |].
  now apply Z.ltb_lt.
Qed.

(** An entry of a sorted list is among the first [n], or every one of
    the first [n] may stand before it and there are [n] of them. *)
Lemma top_or_dominated (d : scores) (n : nat) (kv : string * Q) :
  kv ∈ PersonalityAnalyzer.sorted_by_score_desc d ->
  kv ∈ take n (PersonalityAnalyzer.sorted_by_score_desc d)
  \/ (kv ∈ drop n (PersonalityAnalyzer.sorted_by_score_desc d)
      /\ length (take n (PersonalityAnalyzer.sorted_by_score_desc d)) = n
      /\ Forall (fun c : Q => (kv.2 <= c)%Q)
                (take n (PersonalityAnalyzer.sorted_by_score_desc d)).*2).
Proof.
  pose proof (sorted_by_score_desc_Sorted d) as Hs.
  set (S := PersonalityAnalyzer.sorted_by_score_desc d) in *.
  intros Hin. rewrite <- (take_drop n S) in Hin, Hs.
  apply elem_of_app in Hin as [Hin | Hin]; [now left | right].
  split; [exact Hin |]. split.
  - apply length_take_le.
    destruct (Nat.le_gt_cases n (length S)) as [Hle | Hgt]; [exact Hle |].
    rewrite drop_ge in Hin by lia. inversion Hin.
  - apply Forall_forall. intros c Hc.
    apply list_elem_of_fmap in Hc as (x & -> & Hx).
    apply before_desc_le.
    eapply StronglySorted_app_1_elem_of; eassumption.
Qed.

(** C1 (amended). [extract_traits] scores each trait by scanning its
    keywords over the normalized text: a keyword that occurs as a
    substring is one match and gives 2 points if it is also a token,
    else 1 point.  When some trait has a match the result is the five
    best matched traits.  A trait with at least one match has confidence
    min(100, (rawScore / keywordCount) * 100 + 20) to one decimal, and
    is in the result with it unless five matched traits of at least that
    confidence fill the result.  A trait with zero matches is in the
    result only when no trait has any match (the fallback). *)
Theorem C1_extract_traits_scoring
    (sentiment : string -> Result (Q * Q)) (text : string) :
  (Spec.matched text <> [] ->
   eval (PersonalityAnalyzer.extract_traits sentiment text)
   = Ok (take 5 (PersonalityAnalyzer.sorted_by_score_desc (Spec.matched text))))
  /\ forall result,
       eval (PersonalityAnalyzer.extract_traits sentiment text) = Ok result ->
       forall trait keywords,
         (trait, keywords) ∈ PersonalityAnalyzer.TRAIT_KEYWORDS ->
         ((0 < Spec.matches text keywords)%Z ->
          dict_get trait result = Some (Spec.confidence text keywords)
          \/ ((trait ∉ keys result)
              /\ length result = 5%nat
              /\ Forall (fun c : Q => (Spec.confidence text keywords <= c)%Q)
                        (result.*2)))
         /\ (Spec.matches text keywords = 0%Z ->
             trait ∈ keys result ->
             forall t ks,
               (t, ks) ∈ PersonalityAnalyzer.TRAIT_KEYWORDS ->
               Spec.matches text ks = 0%Z).
Proof.
  unfold eval.
  split; [intros Hne; now rewrite extract_traits_matched |].
  intros result Hrun.
  destruct (Spec.matched text) as [| kv rest] eqn:E.
  - pose proof (proj1 (matched_nil text) E) as Hnone. clear E.
    rename Hnone into E. intros trait keywords Hin. split.
    + intros Hm. specialize (E trait keywords Hin). lia.
    + intros _ _. exact E.
  - assert (Spec.matched text <> []) as Hne by (rewrite E; discriminate).
    clear E kv rest.
    rewrite (extract_traits_matched sentiment text [] Hne) in Hrun.
    injection Hrun as <-.
    intros trait keywords Hin. split.
    + intros Hm.
      assert ((trait, Spec.confidence text keywords)
                ∈ PersonalityAnalyzer.sorted_by_score_desc (Spec.matched text))
        as HinS.
      { unfold PersonalityAnalyzer.sorted_by_score_desc.
        rewrite sorted_Permutation. now apply (elem_of_matched _ _ keywords). }
      destruct (top_or_dominated _ 5 _ HinS) as [Htop | (Hdrop & Hlen & Hall)].
      * left. apply dict_get_NoDup; [apply top_five_keys_NoDup | exact Htop].
      * right. split; [| split; [exact Hlen | exact Hall]].
        pose proof (matched_keys_NoDup text) as Hnd.
        unfold keys in Hnd.
        rewrite <- (sorted_Permutation (fun x y : string * Q => Qleb y.2 x.2))
          in Hnd.
        fold (PersonalityAnalyzer.sorted_by_score_desc (Spec.matched text)) in Hnd.
        rewrite <- (take_drop 5 (PersonalityAnalyzer.sorted_by_score_desc _)),
          fmap_app in Hnd.
        apply NoDup_app in Hnd as (_ & Hdisj & _).
        intros Hk. apply (Hdisj trait Hk).
        apply list_elem_of_fmap. now exists (trait, Spec.confidence text keywords).
    + intros Hzero Hk. exfalso.
      assert (trait ∈ keys (Spec.matched text)) as HkM.
      { unfold keys in *. rewrite fmap_take in Hk.
        eapply elem_of_sublist in Hk; [| apply sublist_take].
        unfold PersonalityAnalyzer.sorted_by_score_desc in Hk.
        now rewrite sorted_Permutation in Hk. }
      apply matched_keys_in_catalog in HkM as (ks & Hin' & Hm).
      assert (ks = keywords) as ->
        by (eapply NoDup_fst_functional;
            [apply catalog_NoDup | exact Hin' | exact Hin]).
      lia.
Qed.

Lemma C1_extract_traits_scoring_witness :
  eval (PersonalityAnalyzer.extract_traits (fun _ => Ok (0%Q, 0%Q)) "I create art")
  = Ok [("Creative", (533 # 10)%Q)]
  /\ (0 < Spec.matches "I create art"
            ["create"; "imagine"; "art"; "design"; "innovative"; "original";
             "unique"; "inventive"; "artistic"; "creative"; "ideas"; "inspire"])%Z
  /\ Some (533 # 10)%Q
     = Some (Spec.confidence "I create art"
            ["create"; "imagine"; "art"; "design"; "innovative"; "original";
             "unique"; "inventive"; "artistic"; "creative"; "ideas"; "inspire"]).
Proof.
  assert (eval (PersonalityAnalyzer.extract_traits (fun _ => Ok (0%Q, 0%Q))
                  "I create art")
          = Ok [("Creative", (533 # 10)%Q)]) as Hrun
    by (vm_compute; reflexivity).
  assert (0 < Spec.matches "I create art"
            ["create"; "imagine"; "art"; "design"; "innovative"; "original";
             "unique"; "inventive"; "artistic"; "creative"; "ideas"; "inspire"])%Z
    as Hm by (vm_compute; reflexivity).
  assert (("Creative",
           ["create"; "imagine"; "art"; "design"; "innovative"; "original";
            "unique"; "inventive"; "artistic"; "creative"; "ideas"; "inspire"])
          ∈ PersonalityAnalyzer.TRAIT_KEYWORDS) as Hin
    by (apply (bool_decide_unpack _); vm_compute; exact I).
  split; [exact Hrun |]. split; [exact Hm |].
  destruct (proj1 (proj2 (C1_extract_traits_scoring _ _) _ Hrun _ _ Hin) Hm)
    as [Hget | (_ & Hlen & _)].
  - exact Hget.
  - discriminate Hlen.
Defined.

(** C1 as it is worded also for texts without any match: every trait
    with zero matches would be absent from the result.  The fallback
    returns such a trait. *)
Lemma C1_counterexample_fallback_trait :
  ~ (forall (sentiment : string -> Result (Q * Q)) (text : string)
            (result : scores),
       eval (PersonalityAnalyzer.extract_traits sentiment text) = Ok result ->
       forall trait keywords,
         (trait, keywords) ∈ PersonalityAnalyzer.TRAIT_KEYWORDS ->
         Spec.matches text keywords = 0%Z ->
         trait ∉ keys result).
Proof.
  intros H.
  apply (H (fun _ => Ok (0%Q, 0%Q)) "xyz qqq zzz wwwww" [("Calm", 50%Q)]
           ltac:(vm_compute; reflexivity)
           "Calm"
           ["peace"; "quiet"; "relax"; "calm"; "serene"; "tranquil";
            "meditate"; "mindful"; "balance"; "harmony"; "gentle"; "patient"]).
  - apply (bool_decide_unpack _). vm_compute. exact I.
  - vm_compute. reflexivity.
  - apply (bool_decide_unpack _). vm_compute. exact I.
Qed.

(** ** Emotion detection *)

Section Detection.
Variable image : Type.
Variable imdecode : list Z -> option image.
Variable write_temp : image -> Result string.
Variable path_exists : string -> bool.
Variable DeepFace_analyze : string -> Result EmotionDetector.deepface_result.

Abbreviation detect_from_bytes :=
  (EmotionDetector.detect_from_bytes image imdecode write_temp path_exists
     DeepFace_analyze).
Abbreviation emotion_result :=
  (EmotionDetector.emotion_result image imdecode write_temp path_exists
     DeepFace_analyze).
Abbreviation detection_fails :=
  (Spec.detection_fails image imdecode write_temp path_exists DeepFace_analyze).

Lemma report_success (a : EmotionDetector.analysis) :
  EmotionDetector.report a !! "success" = Some (FBool true).
Proof. reflexivity. Qed.

(** The detector reports success exactly when the detection does not
    fail. *)
Lemma detect_from_bytes_success (image_bytes : list Z) :
  detect_from_bytes image_bytes !! "success"
  = Some (FBool (negb (detection_fails image_bytes))).
Proof.
  unfold Spec.detection_fails, EmotionDetector.detect_from_bytes,
    EmotionDetector.detect_emotion.
  destruct (imdecode image_bytes) as [img |]; [| reflexivity].
  unfold mbind, Result_bind, mret, Result_ret.
  destruct (write_temp img) as [path | e]; [| reflexivity].
  destruct (negb (String.eqb path "") && path_exists path); [| reflexivity].
  destruct (DeepFace_analyze path) as [[a | [| a l]] | e]; reflexivity.
Qed.


End Detection.



Example detect_undecodable_bytes :
  EmotionDetector.detect_from_bytes unit (fun _ => None) (fun _ => Ok "tmp.jpg")
    (fun _ => true) (fun _ => Ok (EmotionDetector.Faces [])) [255; 216]%Z
  = <["success" := FBool false]>
    (<["error" := FStr "Could not decode image"]>
    (<["dominant_emotion" := FStr "neutral"]>
    (<["emoji" := FEmoji neutral_face]> ∅))).
Proof. reflexivity. Qed.

(** ** Binary64 against the rationals *)

Lemma raw_score_le (text : string) (ks : list string) :
  (Spec.raw_score text ks <= 2 * Z.of_nat (length ks))%Z.
Proof.
  induction ks as [| k ks IH]; [now compute |].
  rewrite raw_score_cons. unfold Spec.points. cbn [length].
  destruct (Spec.occurs text k), (Spec.is_token text k); lia.
Qed.

(** On every score that a list of 11 or 12 keywords can reach, the
    confidence computed in binary64 is the one computed exactly. *)
Lemma confidence_table :
  forallb (fun n =>
    forallb (fun s =>
      Qeq_bool (Binary64.confidence s n)
               (Py.round (Qmin 100 (inject_Z s / inject_Z n * 100 + 20)) 1))
      (seqZ 0 25))
    [11; 12]%Z = true.
Proof. vm_compute. reflexivity. Qed.

Lemma catalog_lengths :
  Forall (fun e : string * list string =>
            length e.2 = 11%nat \/ length e.2 = 12%nat)
         PersonalityAnalyzer.TRAIT_KEYWORDS.
Proof. apply (bool_decide_unpack _). vm_compute. exact I. Qed.

(** The confidence of a trait of the catalogue does not depend on the
    arithmetic: binary64 gives the same decimal as the exact formula. *)
Lemma confidence_binary64 (text trait : string) (keywords : list string) :
  (trait, keywords) ∈ PersonalityAnalyzer.TRAIT_KEYWORDS ->
  (Binary64.confidence (Spec.raw_score text keywords)
     (Z.of_nat (length keywords))
   == Spec.confidence text keywords)%Q.
Proof.
  intros Hin.
  pose proof catalog_lengths as Hlen. rewrite Forall_forall in Hlen.
  specialize (Hlen _ Hin). cbn [snd] in Hlen.
  pose proof (raw_score_nonneg text keywords) as H0.
  pose proof (raw_score_le text keywords) as H1.
  pose proof confidence_table as T.
  rewrite forallb_forall in T.
  unfold Spec.confidence.
  set (s := Spec.raw_score text keywords) in *.
  assert (In s (seqZ 0 25)) as Hs
    by (apply list_elem_of_In, elem_of_seqZ; destruct Hlen as [E | E]; lia).
  destruct Hlen as [E | E]; rewrite E.
  - specialize (T 11%Z ltac:(now left)). rewrite forallb_forall in T.
    apply Qeq_bool_iff. exact (T s Hs).
  - specialize (T 12%Z ltac:(right; now left)). rewrite forallb_forall in T.
    apply Qeq_bool_iff. exact (T s Hs).
Qed.

Example profile_score_binary64_top :
  Binary64.calculate_profile_score 1 10 1000 = 100%Z.
Proof. vm_compute. reflexivity. Qed.

Example profile_score_binary64_bottom :
  Binary64.calculate_profile_score (-1) 0 0 = 0%Z.
Proof. vm_compute. reflexivity. Qed.

(** Rounding in binary64 can carry a sum across a whole number: for
    polarity -0.99, no trait and 94 characters the exact sum is 19 and
    the sum of the floats lies just below it. *)
Example profile_score_binary64_rounding :
  Binary64.calculate_profile_score (Binary64.of_int (-99) / 100)%float 0 94
  = 18%Z
  /\ calculate_profile_score (- (99 # 100)) 0 94 = 19%Z.
Proof. split; vm_compute; reflexivity. Qed.

(** * Further properties of the code *)

(** ** The profile score grows with its arguments *)

Lemma truncate_mono (x y : Q) :
  (x <= y)%Q -> (Spec.truncate x <= Spec.truncate y)%Z.
Proof.
  intros Hxy. unfold Spec.truncate.
  destruct (Qle_bool 0 x) eqn:Ex, (Qle_bool 0 y) eqn:Ey.
  - now apply Qfloor_resp_le.
  - apply Qle_bool_iff in Ex.
    assert (~ (0 <= y)%Q) as Hy by (rewrite <- Qle_bool_iff; congruence).
    exfalso. apply Hy. eapply Qle_trans; eassumption.
  - assert (~ (0 <= x)%Q) as Hx by (rewrite <- Qle_bool_iff; congruence).
    apply Qle_bool_iff in Ey.
    assert (Qceiling x <= 0)%Z.
    { change 0%Z with (Qceiling 0). apply Qceiling_resp_le.
      apply Qnot_le_lt in Hx. now apply Qlt_le_weak. }
    assert (0 <= Qfloor y)%Z
      by (change 0%Z with (Qfloor 0); now apply Qfloor_resp_le).
    lia.
  - now apply Qceiling_resp_le.
Qed.

Lemma clamp_mono (x y : Q) :
  (x <= y)%Q -> (Spec.clamp 0 100 x <= Spec.clamp 0 100 y)%Q.
Proof.
  intros Hxy. unfold Spec.clamp.
  apply Q.max_le_compat_l, Q.min_le_compat_l, Hxy.
Qed.

Lemma profile_score_mono (p1 p2 : Q) (tc1 tc2 tl1 tl2 : Z) :
  (p1 <= p2)%Q -> (tc1 <= tc2)%Z -> (tl1 <= tl2)%Z ->
  (calculate_profile_score p1 tc1 tl1 <= calculate_profile_score p2 tc2 tl2)%Z.
Proof.
  intros Hp Htc Htl. rewrite !calculate_profile_score_spec. unfold Spec.score.
  apply truncate_mono, clamp_mono.
  assert ((p1 + 1) / 2 * 40 <= (p2 + 1) / 2 * 40)%Q as H1.
  { assert ((p1 + 1) / 2 * 40 == (p1 + 1) * 20)%Q as -> by field.
    assert ((p2 + 1) / 2 * 40 == (p2 + 1) * 20)%Q as -> by field. lra. }
  assert (inject_Z (Z.min (tc1 * 8) 40) <= inject_Z (Z.min (tc2 * 8) 40))%Q
    as H2 by (rewrite <- Zle_Qle; lia).
  assert (Qmin (inject_Z tl1 / 100 * 20) 20 <= Qmin (inject_Z tl2 / 100 * 20) 20)%Q
    as H3.
  { apply Q.min_le_compat_r.
    assert (inject_Z tl1 / 100 * 20 == inject_Z tl1 * (1 # 5))%Q as -> by field.
    assert (inject_Z tl2 / 100 * 20 == inject_Z tl2 * (1 # 5))%Q as -> by field.
    assert (inject_Z tl1 <= inject_Z tl2)%Q by (now rewrite <- Zle_Qle).
    lra. }
  lra.
Qed.

(** The score lies in [0,100] whatever the arguments are. *)
Lemma profile_score_range (polarity : Q) (trait_count text_length : Z) :
  (0 <= calculate_profile_score polarity trait_count text_length <= 100)%Z.
Proof.
  rewrite calculate_profile_score_spec. unfold Spec.score.
  set (x := (_ + _ + _)%Q).
  assert (0 <= Spec.clamp 0 100 x)%Q as H0 by apply Q.le_max_l.
  assert (Spec.clamp 0 100 x <= 100)%Q as H1.
  { unfold Spec.clamp. apply Q.max_lub; [unfold Qle; simpl; lia |].
    apply Q.le_min_l. }
  split.
  - change 0%Z with (Spec.truncate 0). now apply truncate_mono.
  - change 100%Z with (Spec.truncate 100). now apply truncate_mono.
Qed.



Lemma Qfloor_unique (y : Q) (z : Z) :
  (inject_Z z <= y)%Q -> (y < inject_Z (z + 1))%Q -> Qfloor y = z.
Proof.
  intros Hlo Hhi.
  assert (z <= Qfloor y)%Z
    by (rewrite <- (Qfloor_Z z); now apply Qfloor_resp_le).
  assert (Qfloor y < z + 1)%Z; [| lia].
  rewrite Zlt_Qlt. eapply Qle_lt_trans; [apply Qfloor_le | exact Hhi].
Qed.

Lemma Qfloor_add_Z (n : Z) (x : Q) :
  Qfloor (inject_Z n + x) = (n + Qfloor x)%Z.
Proof.
  apply Qfloor_unique.
  - rewrite inject_Z_plus. pose proof (Qfloor_le x). lra.
  - replace (n + Qfloor x + 1)%Z with (n + (Qfloor x + 1))%Z by lia.
    rewrite inject_Z_plus. pose proof (Qlt_floor x). lra.
Qed.

(** On the domain of the score the clamp does nothing. *)
Lemma profile_score_floor (polarity : Q) (trait_count text_length : Z) :
  (-1 <= polarity)%Q -> (polarity <= 1)%Q ->
  (0 <= trait_count)%Z -> (0 <= text_length)%Z ->
  calculate_profile_score polarity trait_count text_length
  = Qfloor ((polarity + 1) / 2 * 40
            + inject_Z (Z.min (trait_count * 8) 40)
            + Qmin (inject_Z text_length / 100 * 20) 20).
Proof.
  intros Hlo Hhi Htc Htl.
  destruct (score_parts_bounds polarity trait_count text_length Hlo Hhi Htc Htl)
    as ([Hs0 Hs1] & [Ht0 Ht1] & [Hx0 Hx1]).
  rewrite calculate_profile_score_spec. unfold Spec.score.
  set (total := ((polarity + 1) / 2 * 40
                 + inject_Z (Z.min (trait_count * 8) 40)
                 + Qmin (inject_Z text_length / 100 * 20) 20)%Q).
  assert (0 <= total)%Q as H0 by (subst total; lra).
  assert (total <= 100)%Q as H1 by (subst total; lra).
  rewrite (truncate_Qeq _ total).
  - unfold Spec.truncate. apply Qle_bool_iff in H0. now rewrite H0.
  - unfold Spec.clamp. rewrite (Q.min_r 100 total) by assumption.
    now apply Q.max_r.
Qed.



(** ** Validation of the name and of the text *)

Lemma match_rest_all (class : ascii -> bool) (s : string) :
  class "010"%char = true ->
  Py.match_rest class s = Py.all_chars class s.
Proof.
  intros Hnl. induction s as [| c s IH]; [reflexivity |].
  cbn [Py.match_rest Py.all_chars]. rewrite IH.
  destruct (Py.at_dollar (String c s)) eqn:E; [| reflexivity].
  unfold Py.at_dollar in E. cbn [String.eqb orb] in E.
  apply andb_true_iff in E as [Ec Es].
  apply Ascii.eqb_eq in Ec. apply String.eqb_eq in Es. subst.
  cbn. now rewrite Hnl.
Qed.

(** The regular expression of [validate_name] accepts the strings that
    are not empty and made of characters of its class only: the line
    feed that [$] tolerates at the end is itself in the class. *)
Lemma re_match_name (name : string) :
  Py.re_match_class_plus name_char name
  = negb (String.eqb name "") && Py.all_chars name_char name.
Proof.
  destruct name as [| c s]; [reflexivity |].
  cbn [Py.re_match_class_plus Py.all_chars String.eqb negb andb].
  now rewrite match_rest_all.
Qed.

Lemma len_zero (s : string) : (Py.len s =? 0)%Z = String.eqb s "".
Proof. destruct s; reflexivity. Qed.

Lemma strip_nil : Py.strip "" = "".
Proof. reflexivity. Qed.

(** X3. [validate_name] accepts a name exactly when it has 2 to 50
    characters, is not blank and consists of ASCII letters, white space,
    hyphens and apostrophes; an accepted name comes with an empty
    message and a rejected one with a message that is not empty. *)
Theorem validate_name_accepts (name : string) :
  ((validate_name name).1 = true <->
   (2 <= Py.len name <= 50)%Z /\ Py.strip name <> ""
   /\ Py.all_chars name_char name = true)
  /\ ((validate_name name).1 = true -> (validate_name name).2 = "")
  /\ ((validate_name name).1 = false -> (validate_name name).2 <> "").
Proof.
  unfold validate_name. rewrite len_zero, re_match_name.
  destruct (String.eqb_spec name "") as [-> | Hne].
  { cbn. repeat split; try discriminate. intros (_ & H & _). now destruct H. }
  cbn [orb negb andb].
  destruct (String.eqb_spec (Py.strip name) "") as [Hs | Hs].
  { cbn. repeat split; try discriminate. intros (_ & H & _). contradiction. }
  destruct (Z.ltb_spec (Py.len name) 2).
  { cbn. repeat split; try discriminate. intros ([H' _] & _). lia. }
  destruct (Z.ltb_spec 50 (Py.len name)).
  { cbn. repeat split; try discriminate. intros ([_ H'] & _). lia. }
  destruct (Py.all_chars name_char name) eqn:Hall; cbn.
  - repeat split; try discriminate; try assumption; try lia.
  - repeat split; try discriminate. intros (_ & _ & H'). discriminate H'.
Qed.

Lemma lstrip_length (s : string) :
  (String.length (Py.lstrip s) <= String.length s)%nat.
Proof.
  induction s as [| c s IH]; [reflexivity |].
  simpl. destruct (Py.isspace c); simpl; lia.
Qed.

Lemma rstrip_length (s : string) :
  (String.length (Py.rstrip s) <= String.length s)%nat.
Proof.
  induction s as [| c s IH]; [reflexivity |].
  rewrite rstrip_cons.
  destruct (String.eqb (Py.rstrip s) "" && Py.isspace c); simpl; lia.
Qed.

Lemma strip_length (s : string) : (Py.len (Py.strip s) <= Py.len s)%Z.
Proof.
  unfold Py.len, Py.strip.
  pose proof (rstrip_length (Py.lstrip s)). pose proof (lstrip_length s). lia.
Qed.

(** [validate_text_input] with a minimum that is positive. *)
Lemma validate_text_input_accepts (text : string) (min_length : Z) :
  (validate_text_input text min_length).1 = true <->
  Py.strip text <> "" /\ (min_length <= Py.len (Py.strip text))%Z
  /\ (Py.len text <= 5000)%Z.
Proof.
  unfold validate_text_input. rewrite len_zero.
  destruct (String.eqb_spec text "") as [-> | Hne].
  { cbn. split; [discriminate |]. intros (H & _). now destruct H. }
  cbn [orb].
  destruct (String.eqb_spec (Py.strip text) "") as [Hs | Hs].
  { cbn. split; [discriminate |]. intros (H & _). contradiction. }
  destruct (Z.ltb_spec (Py.len (Py.strip text)) min_length).
  { cbn. split; [discriminate |]. intros (_ & H' & _). lia. }
  destruct (Z.ltb_spec 5000 (Py.len text)); cbn.
  - split; [discriminate |]. intros (_ & _ & H'). lia.
  - split; [| reflexivity]. intros _. repeat split; [assumption | lia..].
Qed.

(** X4. A text that [validate_text_input] accepts with the default
    minimum of 10 has between 10 and 5000 characters and is never
    stopped by the length gate of [process]: the pipeline returns the
    analysis with success=true, or the analyzer's failure. *)
Theorem validated_text_passes_gate
    (self : NLPPipeline.t) (text : string) (log : list call) :
  (validate_text_input text 10).1 = true ->
  (10 <= Py.len text <= 5000)%Z
  /\ ~ Spec.too_short text
  /\ match NLPPipeline.analyzer_analyze_full self text log with
     | (Ok results, log') =>
         NLPPipeline.process self text log
         = (Ok (<["processed_text" := VStr (Py.take 500 text)]>
               (<["success" := VBool true]> results)), log')
     | (Raise e, log') =>
         NLPPipeline.process self text log
         = (Ok (<["error" := VStr ("Analysis failed: " +:+ str e)]>
               (<["success" := VBool false]> ∅)), log')
     end.
Proof.
  intros Hv. apply validate_text_input_accepts in Hv as (Hs & Hmin & Hmax).
  pose proof (strip_length text) as Hlen.
  assert (~ Spec.too_short text) as G.
  { intros [-> | [H | H]]; [now apply Hs | contradiction | lia]. }
  split; [lia |]. split; [exact G |].
  unfold NLPPipeline.process. rewrite (not_too_short_gate text G).
  unfold try_except, mbind, M_bind, mret, M_ret.
  destruct (NLPPipeline.analyzer_analyze_full self text log)
    as [[results | e] log']; reflexivity.
Qed.

Lemma validated_text_passes_gate_witness :
  (validate_text_input "I love exploring new places" 10).1 = true
  /\ ~ Spec.too_short "I love exploring new places".
Proof.
  assert ((validate_text_input "I love exploring new places" 10).1 = true)
    as Hv by (vm_compute; reflexivity).
  split; [exact Hv |].
  exact (proj1 (proj2 (validated_text_passes_gate
                         (NLPPipeline.init (fun _ => Ok (0%Q, 0%Q)))
                         "I love exploring new places" [] Hv))).
Defined.

Lemma validate_name_accepts_witness :
  (validate_name "Mary-Jane O'Neil").1 = true
  /\ (validate_name "Mary-Jane O'Neil").2 = "".
Proof.
  assert ((validate_name "Mary-Jane O'Neil").1 = true) as Hv
    by (vm_compute; reflexivity).
  split; [exact Hv |].
  exact (proj1 (proj2 (validate_name_accepts "Mary-Jane O'Neil")) Hv).
Defined.

(** ** More on the scoring of traits *)

Lemma scan_keywords_bounds_from
    (cleaned_text : string) (words keywords : list string) (score matches : Z) :
  let r := fold_left (PersonalityAnalyzer.scan_keyword cleaned_text words)
                     keywords (score, matches) in
  (0 <= r.2 - matches <= Z.of_nat (length keywords))%Z
  /\ (r.2 - matches <= r.1 - score <= 2 * (r.2 - matches))%Z.
Proof.
  revert score matches.
  induction keywords as [| k ks IH]; intros score matches; cbn zeta.
  - cbn [fold_left fst snd length]. lia.
  - cbn [fold_left length].
    set (acc := PersonalityAnalyzer.scan_keyword cleaned_text words
                  (score, matches) k).
    assert ((0 <= acc.2 - matches <= 1)%Z
            /\ (acc.2 - matches <= acc.1 - score <= 2 * (acc.2 - matches))%Z)
      as Hstep.
    { subst acc. unfold PersonalityAnalyzer.scan_keyword.
      destruct (Py.contains k cleaned_text);
        [destruct (Py.elem k words) |]; cbn [fst snd]; lia. }
    destruct acc as [s m]. cbn [fst snd] in Hstep.
    pose proof (IH s m) as H. cbn zeta in H. lia.
Qed.

(** X5. In the inner loop of [extract_traits] a trait never has more
    matches than keywords, and its raw score lies between the number of
    matches and twice that number: every match gives 1 or 2 points and
    nothing else gives points. *)
Theorem scan_keywords_bounds
    (cleaned_text : string) (words keywords : list string) :
  let r := fold_left (PersonalityAnalyzer.scan_keyword cleaned_text words)
                     keywords (0, 0)%Z in
  (0 <= r.2 <= Z.of_nat (length keywords))%Z
  /\ (r.2 <= r.1 <= 2 * r.2)%Z.
Proof.
  pose proof (scan_keywords_bounds_from cleaned_text words keywords 0 0) as H.
  cbn zeta in *. lia.
Qed.

Lemma matches_le_raw_score (text : string) (ks : list string) :
  (Spec.matches text ks <= Spec.raw_score text ks)%Z.
Proof.
  induction ks as [| k ks IH]; [now compute |].
  rewrite raw_score_cons, matches_cons. unfold Spec.points.
  destruct (Spec.occurs text k), (Spec.is_token text k); lia.
Qed.

(** Every score that a matched trait of 11 or 12 keywords can have gives
    a confidence of at least 28.3. *)
Lemma confidence_floor_table :
  forallb (fun n =>
    forallb (fun s =>
      Qle_bool (283 # 10)
               (Py.round (Qmin 100 (inject_Z s / inject_Z n * 100 + 20)) 1))
      (seqZ 1 24))
    [11; 12]%Z = true.
Proof. vm_compute. reflexivity. Qed.

Lemma confidence_at_least (text trait : string) (keywords : list string) :
  (trait, keywords) ∈ PersonalityAnalyzer.TRAIT_KEYWORDS ->
  (0 < Spec.matches text keywords)%Z ->
  (283 # 10 <= Spec.confidence text keywords)%Q.
Proof.
  intros Hin Hm.
  pose proof catalog_lengths as Hlen. rewrite Forall_forall in Hlen.
  specialize (Hlen _ Hin). cbn [snd] in Hlen.
  pose proof (matches_le_raw_score text keywords) as H0.
  pose proof (raw_score_le text keywords) as H1.
  pose proof confidence_floor_table as T.
  rewrite forallb_forall in T.
  unfold Spec.confidence.
  set (s := Spec.raw_score text keywords) in *.
  assert (In s (seqZ 1 24)) as Hs
    by (apply list_elem_of_In, elem_of_seqZ; destruct Hlen as [E | E]; lia).
  destruct Hlen as [E | E]; rewrite E.
  - specialize (T 11%Z ltac:(now left)). rewrite forallb_forall in T.
    apply Qle_bool_iff. exact (T s Hs).
  - specialize (T 12%Z ltac:(right; now left)). rewrite forallb_forall in T.
    apply Qle_bool_iff. exact (T s Hs).
Qed.

(** X6. Every confidence that [extract_traits] returns is at least 28.3
    (one substring match among twelve keywords) and at most 100. *)
Theorem extract_traits_confidence_floor
    (sentiment : string -> Result (Q * Q)) (text : string) (result : scores) :
  eval (PersonalityAnalyzer.extract_traits sentiment text) = Ok result ->
  Forall (fun c : Q => (283 # 10 <= c)%Q /\ (c <= 100)%Q) (result.*2).
Proof.
  unfold eval. intros Hrun.
  destruct (Spec.matched text) as [| kv rest] eqn:E.
  - rewrite (extract_traits_fallback sentiment text [] E) in Hrun.
    cbn [fst] in Hrun.
    destruct (sentiment text) as [[polarity subjectivity] | e];
      [| discriminate Hrun].
    injection Hrun as <-. cbn [fst].
    destruct (Qltb 0 polarity); repeat constructor; unfold Qle; simpl; lia.
  - assert (Spec.matched text <> []) as Hne by (rewrite E; discriminate).
    clear E kv rest.
    rewrite (extract_traits_matched sentiment text [] Hne) in Hrun.
    injection Hrun as <-.
    rewrite fmap_take. apply Forall_take.
    unfold PersonalityAnalyzer.sorted_by_score_desc.
    rewrite sorted_Permutation.
    apply Forall_forall. intros c Hc.
    apply list_elem_of_fmap in Hc as ([t c'] & -> & Hin).
    assert (t ∈ keys (Spec.matched text)) as Hk
      by (apply list_elem_of_fmap; now exists (t, c')).
    destruct (matched_keys_in_catalog text t Hk) as (ks & Hcat & Hm).
    apply (elem_of_matched text t ks c' Hcat) in Hin as [_ ->].
    split; [now apply (confidence_at_least text t) | apply confidence_range].
Qed.

Lemma extract_traits_confidence_floor_witness :
  Forall (fun c : Q => (283 # 10 <= c)%Q /\ (c <= 100)%Q)
         ([("Creative", (533 # 10)%Q)].*2).
Proof.
  exact (extract_traits_confidence_floor (fun _ => Ok (0%Q, 0%Q))
           "I create art" [("Creative", (533 # 10)%Q)]
           ltac:(vm_compute; reflexivity)).
Defined.

(** The names of the traits that [extract_traits] returns are names of
    the catalogue. *)
Lemma extract_traits_keys
    (sentiment : string -> Result (Q * Q)) (text : string) (result : scores)
    (trait : string) :
  eval (PersonalityAnalyzer.extract_traits sentiment text) = Ok result ->
  trait ∈ keys result ->
  trait ∈ PersonalityAnalyzer.TRAIT_KEYWORDS.*1.
Proof.
  unfold eval. intros Hrun Hk.
  destruct (Spec.matched text) as [| kv rest] eqn:E.
  - rewrite (extract_traits_fallback sentiment text [] E) in Hrun.
    cbn [fst] in Hrun.
    destruct (sentiment text) as [[polarity subjectivity] | e];
      [| discriminate Hrun].
    injection Hrun as <-. cbn [fst] in Hk.
    destruct (Qltb 0 polarity); cbn in Hk;
      apply list_elem_of_singleton in Hk as ->;
      apply (bool_decide_unpack _); vm_compute; exact I.
  - assert (Spec.matched text <> []) as Hne by (rewrite E; discriminate).
    clear E kv rest.
    rewrite (extract_traits_matched sentiment text [] Hne) in Hrun.
    injection Hrun as <-.
    unfold keys in Hk. rewrite fmap_take in Hk.
    eapply elem_of_sublist in Hk; [| apply sublist_take].
    unfold PersonalityAnalyzer.sorted_by_score_desc in Hk.
    rewrite sorted_Permutation in Hk.
    destruct (matched_keys_in_catalog text trait Hk) as (ks & Hcat & _).
    apply list_elem_of_fmap. now exists (trait, ks).
Qed.

(** X7. Every trait that [extract_traits] returns is a trait of the
    catalogue, and has a description of its own in
    [get_trait_descriptions] and a colour of its own in
    [get_color_from_trait]: the defaults of the display are never used
    for a result of the analysis. *)
Theorem extract_traits_known_traits
    (sentiment : string -> Result (Q * Q)) (text : string) (result : scores)
    (trait : string) :
  eval (PersonalityAnalyzer.extract_traits sentiment text) = Ok result ->
  trait ∈ keys result ->
  trait ∈ PersonalityAnalyzer.TRAIT_KEYWORDS.*1
  /\ trait ∈ get_trait_descriptions.*1
  /\ table_get get_trait_descriptions trait "" <> ""
  /\ get_color_from_trait trait <> "#34495E".
Proof.
  intros Hrun Hk.
  pose proof (extract_traits_keys sentiment text result trait Hrun Hk) as Hin.
  split; [exact Hin |].
  cbn in Hin.
  repeat (apply elem_of_cons in Hin as [-> | Hin]);
    [.. | now apply elem_of_nil in Hin];
    (split; [apply (bool_decide_unpack _); vm_compute; exact I |]);
    split; discriminate.
Qed.

Lemma extract_traits_known_traits_witness :
  "Creative" ∈ keys [("Creative", (533 # 10)%Q)]
  /\ get_color_from_trait "Creative" <> "#34495E".
Proof.
  assert ("Creative" ∈ keys [("Creative", (533 # 10)%Q)]) as Hk
    by (apply (bool_decide_unpack _); vm_compute; exact I).
  split; [exact Hk |].
  exact (proj2 (proj2 (proj2
           (extract_traits_known_traits (fun _ => Ok (0%Q, 0%Q))
              "I create art" [("Creative", (533 # 10)%Q)] "Creative"
              ltac:(vm_compute; reflexivity) Hk)))).
Defined.

(** ** The cleaned text *)

Lemma lower_char_kept (c : ascii) : kept_char c = true -> Py.lower_char c = c.
Proof.
  destruct c as [[] [] [] [] [] [] [] []]; vm_compute;
    first [reflexivity | discriminate].
Qed.

Lemma lower_char_idem (c : ascii) :
  Py.lower_char (Py.lower_char c) = Py.lower_char c.
Proof. destruct c as [[] [] [] [] [] [] [] []]; reflexivity. Qed.

Lemma lower_idem (s : string) : Py.lower (Py.lower s) = Py.lower s.
Proof.
  induction s as [| c s IH]; [reflexivity |].
  simpl. now rewrite lower_char_idem, IH.
Qed.

Lemma lower_kept (s : string) :
  Py.all_chars kept_char s = true -> Py.lower s = s.
Proof.
  induction s as [| c s IH]; [reflexivity |].
  simpl. intros [Hc Hs]%andb_true_iff.
  now rewrite (lower_char_kept c Hc), IH.
Qed.

Lemma sub_non_az_space_kept (s : string) :
  Py.all_chars kept_char s = true -> Py.sub_non_az_space s = s.
Proof.
  induction s as [| c s IH]; [reflexivity |].
  simpl. intros [Hc Hs]%andb_true_iff.
  unfold kept_char in Hc. now rewrite Hc, IH.
Qed.

Lemma sub_non_az_space_all (s : string) :
  Py.all_chars kept_char (Py.sub_non_az_space s) = true.
Proof.
  induction s as [| c s IH]; [reflexivity |].
  simpl. destruct (Py.is_az c || Py.isspace c) eqn:E; [| exact IH].
  simpl. unfold kept_char at 1. now rewrite E.
Qed.

Lemma lstrip_all (p : ascii -> bool) (s : string) :
  Py.all_chars p s = true -> Py.all_chars p (Py.lstrip s) = true.
Proof.
  induction s as [| c s IH]; [reflexivity |].
  simpl. intros H. destruct (Py.isspace c); [| exact H].
  apply andb_true_iff in H as [_ H]. now apply IH.
Qed.

Lemma rstrip_all (p : ascii -> bool) (s : string) :
  Py.all_chars p s = true -> Py.all_chars p (Py.rstrip s) = true.
Proof.
  induction s as [| c s IH]; [reflexivity |].
  rewrite rstrip_cons. cbn [Py.all_chars]. intros [Hc Hs]%andb_true_iff.
  destruct (String.eqb (Py.rstrip s) "" && Py.isspace c); [reflexivity |].
  cbn [Py.all_chars]. now rewrite Hc, IH.
Qed.

Lemma rstrip_idem (s : string) : Py.rstrip (Py.rstrip s) = Py.rstrip s.
Proof.
  induction s as [| c s IH]; [reflexivity |].
  rewrite rstrip_cons.
  destruct (String.eqb (Py.rstrip s) "" && Py.isspace c) eqn:E;
    [reflexivity |].
  now rewrite rstrip_cons, IH, E.
Qed.

Lemma lstrip_idem (s : string) : Py.lstrip (Py.lstrip s) = Py.lstrip s.
Proof.
  induction s as [| c s IH]; [reflexivity |].
  simpl. destruct (Py.isspace c) eqn:E; [exact IH |].
  simpl. now rewrite E.
Qed.

Lemma lstrip_rstrip (s : string) :
  Py.lstrip s = s -> Py.lstrip (Py.rstrip s) = Py.rstrip s.
Proof.
  destruct s as [| c s]; [reflexivity |].
  intros H. simpl in H.
  destruct (Py.isspace c) eqn:E.
  - exfalso. pose proof (lstrip_length s) as Hlen.
    rewrite H in Hlen. simpl in Hlen. lia.
  - rewrite rstrip_cons, E, andb_false_r. simpl. now rewrite E.
Qed.

Lemma strip_idem (s : string) : Py.strip (Py.strip s) = Py.strip s.
Proof.
  unfold Py.strip.
  rewrite (lstrip_rstrip (Py.lstrip s) (lstrip_idem s)).
  apply rstrip_idem.
Qed.

(** X8. The text that [clean_text] returns consists of the letters a-z
    and white space only, has no white space at either end, and is not
    changed by cleaning it again; cleaning does not depend on the case
    of the letters. *)
Theorem clean_text_normal_form (text : string) :
  Py.all_chars kept_char (PersonalityAnalyzer.clean_text text) = true
  /\ Py.lstrip (PersonalityAnalyzer.clean_text text)
     = PersonalityAnalyzer.clean_text text
  /\ Py.rstrip (PersonalityAnalyzer.clean_text text)
     = PersonalityAnalyzer.clean_text text
  /\ PersonalityAnalyzer.clean_text (PersonalityAnalyzer.clean_text text)
     = PersonalityAnalyzer.clean_text text
  /\ PersonalityAnalyzer.clean_text (Py.lower text)
     = PersonalityAnalyzer.clean_text text.
Proof.
  assert (Py.all_chars kept_char (PersonalityAnalyzer.clean_text text) = true)
    as Hall.
  { unfold PersonalityAnalyzer.clean_text, Py.strip.
    apply rstrip_all, lstrip_all, sub_non_az_space_all. }
  split; [exact Hall |].
  split; [| split; [| split]].
  - unfold PersonalityAnalyzer.clean_text, Py.strip.
    apply lstrip_rstrip, lstrip_idem.
  - unfold PersonalityAnalyzer.clean_text, Py.strip. apply rstrip_idem.
  - unfold PersonalityAnalyzer.clean_text at 1.
    rewrite (lower_kept _ Hall), (sub_non_az_space_kept _ Hall).
    unfold PersonalityAnalyzer.clean_text. apply strip_idem.
  - unfold PersonalityAnalyzer.clean_text. now rewrite lower_idem.
Qed.

(** X9. When some trait has a match, what [extract_traits] returns
    depends on the text only through its cleaned form, and not on the
    sentiment capability, which is not consulted: texts that differ in
    case, digits or punctuation only get the same traits. *)
Theorem extract_traits_depends_on_clean_text
    (sentiment1 sentiment2 : string -> Result (Q * Q)) (text1 text2 : string)
    (log : list call) :
  PersonalityAnalyzer.clean_text text1 = PersonalityAnalyzer.clean_text text2 ->
  Spec.matched text1 <> [] ->
  (PersonalityAnalyzer.extract_traits sentiment1 text1 log).1
  = (PersonalityAnalyzer.extract_traits sentiment2 text2 log).1
  /\ (PersonalityAnalyzer.extract_traits sentiment1 text1 log).2
     = log ++ [Call "extract_traits" text1].
Proof.
  intros Hclean Hne.
  assert (Spec.matched text1 = Spec.matched text2) as Hm
    by (rewrite <- !scoring_loop; now rewrite Hclean).
  rewrite (extract_traits_matched sentiment1 text1 log Hne).
  rewrite Hm in Hne.
  rewrite (extract_traits_matched sentiment2 text2 log Hne).
  cbn [fst snd]. now rewrite Hm.
Qed.

Lemma extract_traits_depends_on_clean_text_witness :
  PersonalityAnalyzer.clean_text "I create art"
  = PersonalityAnalyzer.clean_text "i CREATE, art!!"
  /\ (PersonalityAnalyzer.extract_traits (fun _ => Raise (Exc "no corpus"))
        "I create art" []).1
     = (PersonalityAnalyzer.extract_traits (fun _ => Ok (0%Q, 0%Q))
          "i CREATE, art!!" []).1.
Proof.
  assert (PersonalityAnalyzer.clean_text "I create art"
          = PersonalityAnalyzer.clean_text "i CREATE, art!!") as Hc
    by (vm_compute; reflexivity).
  assert (Spec.matched "I create art" <> []) as Hne
    by (vm_compute; discriminate).
  split; [exact Hc |].
  exact (proj1 (extract_traits_depends_on_clean_text
                  (fun _ => Raise (Exc "no corpus")) (fun _ => Ok (0%Q, 0%Q))
                  "I create art" "i CREATE, art!!" [] Hc Hne)).
Defined.

(** ** The summary *)

(** X10. [get_personality_summary] reads the first three trait names
    only; for three or more traits it is "You are a, b, and c."; and for
    a map that is not empty it is never the generic sentence. *)
Theorem get_personality_summary_top_three (traits : scores) :
  PersonalityAnalyzer.get_personality_summary traits
  = PersonalityAnalyzer.get_personality_summary (take 3 traits)
  /\ (forall a b c rest,
        traits = a :: b :: c :: rest ->
        PersonalityAnalyzer.get_personality_summary traits
        = "You are " +:+ a.1 +:+ ", " +:+ b.1 +:+ ", and " +:+ c.1 +:+ ".")
  /\ (traits <> [] ->
      PersonalityAnalyzer.get_personality_summary traits
      <> "Your personality is unique and multifaceted!").
Proof.
  split; [| split].
  - destruct traits as [| a [| b [| c rest]]]; reflexivity.
  - intros a b c rest ->.
    unfold PersonalityAnalyzer.get_personality_summary.
    cbn [keys fmap list_fmap take firstn removelast List.last Py.join
         String.concat].
    now rewrite !append_assoc.
  - intros Hne H. apply (f_equal (String.get 3)) in H.
    destruct traits as [| a [| b [| c rest]]]; [now apply Hne | ..];
      vm_compute in H; discriminate H.
Qed.

Lemma get_personality_summary_top_three_witness :
  [("Calm", 50%Q)] <> []
  /\ PersonalityAnalyzer.get_personality_summary [("Calm", 50%Q)]
     <> "Your personality is unique and multifaceted!".
Proof.
  assert ([("Calm", 50%Q)] <> []) as Hne by discriminate.
  split; [exact Hne |].
  exact (proj2 (proj2 (get_personality_summary_top_three [("Calm", 50%Q)])) Hne).
Defined.

(** ** Rounding to two decimals *)

Lemma round_half_even_error (y : Q) :
  (- (1 # 2) <= inject_Z (Py.round_half_even y) - y)%Q
  /\ (inject_Z (Py.round_half_even y) - y <= 1 # 2)%Q.
Proof.
  pose proof (Qfloor_le y) as Hlo. pose proof (Qlt_floor y) as Hhi.
  rewrite inject_Z_plus in Hhi. change (inject_Z 1) with 1%Q in Hhi.
  unfold Py.round_half_even.
  destruct (Qcompare_spec (y - inject_Z (Qfloor y)) (1 # 2)) as [E | E | E].
  - destruct (Z.even (Qfloor y)).
    + split; lra.
    + rewrite inject_Z_plus. change (inject_Z 1) with 1%Q. split; lra.
  - split; lra.
  - rewrite inject_Z_plus. change (inject_Z 1) with 1%Q. split; lra.
Qed.

Lemma round2_error (q : Q) :
  (- (1 # 200) <= Py.round q 2 - q)%Q /\ (Py.round q 2 - q <= 1 # 200)%Q.
Proof.
  unfold Py.round. rewrite Qred_correct.
  change (inject_Z (10 ^ Z.of_nat 2)) with 100%Q.
  destruct (round_half_even_error (q * 100)) as [Hlo Hhi].
  set (r := inject_Z (Py.round_half_even (q * 100))) in *.
  assert (r / 100 == r * (1 # 100))%Q as -> by field.
  split; lra.
Qed.

(** ** The full analysis *)

Lemma extract_traits_ok
    (sentiment : string -> Result (Q * Q)) (text : string) (log : list call)
    (polarity subjectivity : Q) :
  sentiment text = Ok (polarity, subjectivity) ->
  exists calls,
    PersonalityAnalyzer.extract_traits sentiment text log
    = (Ok (traits_of polarity text), log ++ calls).
Proof.
  intros Hs. unfold traits_of.
  destruct (Spec.matched text) as [| kv rest] eqn:E.
  - rewrite (extract_traits_fallback sentiment text log E), Hs. cbn [fst].
    eexists. rewrite <- app_assoc. reflexivity.
  - assert (Spec.matched text <> []) as Hne by (rewrite E; discriminate).
    rewrite (extract_traits_matched sentiment text log Hne), E.
    eexists. reflexivity.
Qed.

(** X11. [analyze_full] fails exactly when the sentiment capability
    fails, with the same exception.  Otherwise it returns the traits
    that [extract_traits] returns, their summary, the number of tokens of
    the raw text, and polarity and subjectivity rounded to two decimals,
    each within 0.005 of the value the capability gave. *)
Theorem analyze_full_outcome
    (sentiment : string -> Result (Q * Q)) (text : string) (log : list call) :
  (forall e, sentiment text = Raise e ->
     (PersonalityAnalyzer.analyze_full sentiment text log).1 = Raise e)
  /\ (forall polarity subjectivity,
        sentiment text = Ok (polarity, subjectivity) ->
        exists results traits,
          (PersonalityAnalyzer.analyze_full sentiment text log).1 = Ok results
          /\ eval (PersonalityAnalyzer.extract_traits sentiment text) = Ok traits
          /\ results !! "traits" = Some (VScores traits)
          /\ results !! "summary"
             = Some (VStr (PersonalityAnalyzer.get_personality_summary traits))
          /\ results !! "word_count"
             = Some (VInt (Z.of_nat (length (Py.split text))))
          /\ results !! "polarity" = Some (VFloat (Py.round polarity 2))
          /\ results !! "subjectivity" = Some (VFloat (Py.round subjectivity 2))
          /\ (- (1 # 200) <= Py.round polarity 2 - polarity <= 1 # 200)%Q
          /\ (- (1 # 200) <= Py.round subjectivity 2 - subjectivity <= 1 # 200)%Q).
Proof.
  split.
  - intros e Hs.
    unfold PersonalityAnalyzer.analyze_full,
      PersonalityAnalyzer.analyze_sentiment, PersonalityAnalyzer.TextBlob,
      enter, mbind, M_bind, mret, M_ret.
    now rewrite Hs.
  - intros polarity subjectivity Hs.
    destruct (extract_traits_ok sentiment text [] polarity subjectivity Hs)
      as [calls0 Hrun0].
    exists
      (<["sentiment" :=
           VStr (if Qltb (1 # 10) polarity then "Positive"
                 else if Qltb polarity (- (1 # 10)) then "Negative"
                 else "Neutral")]>
      (<["polarity" := VFloat (Py.round polarity 2)]>
      (<["subjectivity" := VFloat (Py.round subjectivity 2)]>
      (<["traits" := VScores (traits_of polarity text)]>
      (<["summary" :=
           VStr (PersonalityAnalyzer.get_personality_summary
                   (traits_of polarity text))]>
      (<["word_count" := VInt (Z.of_nat (length (Py.split text)))]>
       ∅)))))), (traits_of polarity text).
    split; [| split; [unfold eval; now rewrite Hrun0 |]].
    + unfold PersonalityAnalyzer.analyze_full,
        PersonalityAnalyzer.analyze_sentiment.
      unfold enter, mbind, M_bind, PersonalityAnalyzer.TextBlob, mret, M_ret.
      rewrite Hs. cbn [fst snd].
      match goal with
      | |- context [PersonalityAnalyzer.extract_traits sentiment text ?l] =>
          destruct (extract_traits_ok sentiment text l polarity subjectivity Hs)
            as [calls Hrun]; rewrite Hrun
      end.
      reflexivity.
    + pose proof (round2_error polarity).
      pose proof (round2_error subjectivity).
      repeat split; try reflexivity; tauto.
Qed.

Lemma analyze_full_outcome_witness :
  exists results,
    (PersonalityAnalyzer.analyze_full (fun _ => Ok (1 # 8, 3 # 5)%Q)
       "I create art" []).1 = Ok results
    /\ results !! "polarity" = Some (VFloat (3 # 25)).
Proof.
  destruct (proj2 (analyze_full_outcome (fun _ => Ok (1 # 8, 3 # 5)%Q)
                     "I create art" []) (1 # 8)%Q (3 # 5)%Q eq_refl)
    as (results & traits & Hrun & _ & _ & _ & _ & Hp & _).
  exists results. split; [exact Hrun | exact Hp].
Defined.

(** ** The pipeline with the analyzer of the repository *)

Lemma analyze_full_ok
    (sentiment : string -> Result (Q * Q)) (text : string) (log : list call)
    (polarity subjectivity : Q) :
  sentiment text = Ok (polarity, subjectivity) ->
  exists calls,
    PersonalityAnalyzer.analyze_full sentiment text log
    = (Ok (analysis_of polarity subjectivity text), log ++ calls).
Proof.
  intros Hs.
  unfold PersonalityAnalyzer.analyze_full,
    PersonalityAnalyzer.analyze_sentiment.
  unfold enter, mbind, M_bind, PersonalityAnalyzer.TextBlob, mret, M_ret.
  rewrite Hs. cbn [fst snd].
  match goal with
  | |- context [PersonalityAnalyzer.extract_traits sentiment text ?l] =>
      destruct (extract_traits_ok sentiment text l polarity subjectivity Hs)
        as [calls Hrun]; rewrite Hrun
  end.
  eexists. rewrite <- !app_assoc. reflexivity.
Qed.

Lemma analyze_full_raise
    (sentiment : string -> Result (Q * Q)) (text : string) (log : list call)
    (e : Exception) :
  sentiment text = Raise e ->
  PersonalityAnalyzer.analyze_full sentiment text log
  = (Raise e,
     log ++ [Call "analyze_full" text; Call "analyze_sentiment" text;
             Call "TextBlob" text]).
Proof.
  intros Hs.
  unfold PersonalityAnalyzer.analyze_full,
    PersonalityAnalyzer.analyze_sentiment.
  unfold enter, mbind, M_bind, PersonalityAnalyzer.TextBlob, mret, M_ret.
  rewrite Hs. now rewrite <- !app_assoc.
Qed.

(** The three ways in which [process] ends with the analyzer of the
    repository. *)
Lemma process_init_cases
    (sentiment : string -> Result (Q * Q)) (text : string) (log : list call) :
  (Spec.too_short text /\
   NLPPipeline.process (NLPPipeline.init sentiment) text log
   = (Ok (<["error" :=
              VStr "Text too short. Please provide at least 10 characters."]>
          (<["success" := VBool false]> ∅)), log))
  \/ (~ Spec.too_short text /\ exists e calls,
        sentiment text = Raise e /\
        NLPPipeline.process (NLPPipeline.init sentiment) text log
        = (Ok (<["error" := VStr ("Analysis failed: " +:+ str e)]>
              (<["success" := VBool false]> ∅)), log ++ calls))
  \/ (~ Spec.too_short text /\ exists polarity subjectivity calls,
        sentiment text = Ok (polarity, subjectivity) /\
        NLPPipeline.process (NLPPipeline.init sentiment) text log
        = (Ok (<["processed_text" := VStr (Py.take 500 text)]>
              (<["success" := VBool true]>
               (analysis_of polarity subjectivity text))), log ++ calls)).
Proof.
  unfold NLPPipeline.process.
  destruct (String.eqb text "" || (Py.len (Py.strip text) <? 10)%Z) eqn:G.
  - left. split; [now apply too_short_gate | reflexivity].
  - assert (~ Spec.too_short text) as Hg
      by (intros H; apply too_short_gate in H; congruence).
    right. unfold try_except, mbind, M_bind, mret, M_ret.
    cbn [NLPPipeline.init NLPPipeline.analyzer_analyze_full].
    destruct (sentiment text) as [[polarity subjectivity] | e] eqn:Hs.
    + right. split; [exact Hg |].
      destruct (analyze_full_ok sentiment text log polarity subjectivity Hs)
        as [calls Hrun].
      exists polarity, subjectivity, calls. rewrite Hrun. now split.
    + left. split; [exact Hg |].
      eexists e, _. rewrite (analyze_full_raise sentiment text log e Hs).
      now split.
Qed.

(** X12. With the analyzer of the repository [process] always returns
    a result.  It has success=true exactly when the text passes the
    length gate and the sentiment capability answers, and then it has the
    eight fields of a full analysis; otherwise it has the two fields
    'error' and 'success' and nothing else. *)
Theorem process_result_shape
    (sentiment : string -> Result (Q * Q)) (text : string) (log : list call) :
  exists result log',
    NLPPipeline.process (NLPPipeline.init sentiment) text log
    = (Ok result, log')
    /\ (result !! "success" = Some (VBool true) <->
        ~ Spec.too_short text /\ exists blob, sentiment text = Ok blob)
    /\ (result !! "success" = Some (VBool true) ->
        dom result
        = {[ "sentiment"; "polarity"; "subjectivity"; "traits"; "summary";
             "word_count"; "success"; "processed_text" ]})
    /\ (result !! "success" <> Some (VBool true) ->
        result !! "success" = Some (VBool false)
        /\ dom result = {[ "error"; "success" ]}).
Proof.
  destruct (process_init_cases sentiment text log)
    as [(Hg & Hrun) | [(Hg & e & calls & Hs & Hrun)
                      | (Hg & p & s & calls & Hs & Hrun)]];
    rewrite Hrun; eexists _, _; (split; [reflexivity |]).
  - split; [| split].
    + split; [discriminate |]. intros [H _]. contradiction.
    + discriminate.
    + intros _. split; [reflexivity |].
      rewrite !dom_insert_L, dom_empty_L. set_solver.
  - split; [| split].
    + split; [discriminate |]. intros [_ [blob H]]. congruence.
    + discriminate.
    + intros _. split; [reflexivity |].
      rewrite !dom_insert_L, dom_empty_L. set_solver.
  - split; [| split].
    + split; [| reflexivity]. intros _. split; [exact Hg | eauto].
    + intros _. unfold analysis_of.
      rewrite !dom_insert_L, dom_empty_L. set_solver.
    + intros H. exfalso. now apply H.
Qed.

(** ** The emotion that the application uses *)

Section EmotionResult.
Variable image : Type.
Variable imdecode : list Z -> option image.
Variable write_temp : image -> Result string.
Variable path_exists : string -> bool.
Variable DeepFace_analyze : string -> Result EmotionDetector.deepface_result.

Abbreviation detect_from_bytes' :=
  (EmotionDetector.detect_from_bytes image imdecode write_temp path_exists
     DeepFace_analyze).
Abbreviation emotion_result' :=
  (EmotionDetector.emotion_result image imdecode write_temp path_exists
     DeepFace_analyze).
Abbreviation detection_fails' :=
  (Spec.detection_fails image imdecode write_temp path_exists DeepFace_analyze).

Lemma emotion_result_failed (image_bytes : list Z) :
  detection_fails' image_bytes = true ->
  emotion_result' (Some image_bytes) = Spec.neutral_default.
Proof.
  intros Hfail. unfold EmotionDetector.emotion_result.
  rewrite detect_from_bytes_success, Hfail.
  cbn [EmotionDetector.truthy negb]. now rewrite orb_true_r.
Qed.

(** A detection that does not fail reports one face. *)
Lemma detect_from_bytes_report (image_bytes : list Z) :
  detection_fails' image_bytes = false ->
  exists a, detect_from_bytes' image_bytes = EmotionDetector.report a.
Proof.
  unfold Spec.detection_fails, EmotionDetector.detect_from_bytes,
    EmotionDetector.detect_emotion.
  destruct (imdecode image_bytes) as [img |]; [| discriminate].
  unfold mbind, Result_bind, mret, Result_ret.
  destruct (write_temp img) as [path | e]; [| discriminate].
  destruct (negb (String.eqb path "") && path_exists path); [| discriminate].
  destruct (DeepFace_analyze path) as [[a | [| a l]] | e];
    try discriminate; intros _; eauto.
Qed.

Lemma emotion_result_succeeded (image_bytes : list Z) :
  detection_fails' image_bytes = false ->
  emotion_result' (Some image_bytes) = detect_from_bytes' image_bytes.
Proof.
  intros Hok. unfold EmotionDetector.emotion_result.
  rewrite detect_from_bytes_success, Hok.
  cbn [EmotionDetector.truthy negb]. rewrite orb_false_r.
  destruct (detect_from_bytes_report image_bytes Hok) as [a ->].
  reflexivity.
Qed.

Lemma emotion_result_dominant (uploaded_image : option (list Z)) :
  exists emotion,
    emotion_result' uploaded_image !! "dominant_emotion" = Some (FStr emotion).
Proof.
  destruct uploaded_image as [image_bytes |]; [| eexists; reflexivity].
  destruct (detection_fails' image_bytes) eqn:Hf.
  - rewrite (emotion_result_failed image_bytes Hf). eexists; reflexivity.
  - rewrite (emotion_result_succeeded image_bytes Hf).
    destruct (detect_from_bytes_report image_bytes Hf) as [a ->].
    eexists; reflexivity.
Qed.


End EmotionResult.

(** ** One submission, from the form to the profile *)

Section Submission.
Variable sentiment : string -> Result (Q * Q).
Variable image : Type.
Variable imdecode : list Z -> option image.
Variable write_temp : image -> Result string.
Variable path_exists : string -> bool.
Variable DeepFace_analyze : string -> Result EmotionDetector.deepface_result.

Abbreviation on_analyze :=
  (App.on_analyze sentiment image imdecode write_temp path_exists
     DeepFace_analyze).
Abbreviation emotion_result'' :=
  (EmotionDetector.emotion_result image imdecode write_temp path_exists
     DeepFace_analyze).

Lemma on_analyze_invalid_name
    (name text_input : string) (uploaded_image : option (list Z))
    (log : list call) :
  (validate_name name).1 = false ->
  on_analyze name text_input uploaded_image log
  = (Ok (ShowError (validate_name name).2), log).
Proof.
  intros H. unfold App.on_analyze.
  destruct (validate_name name) as [nv ne].
  destruct (validate_text_input text_input 10) as [tv te].
  cbn [fst snd] in *. now subst.
Qed.

Lemma on_analyze_invalid_text
    (name text_input : string) (uploaded_image : option (list Z))
    (log : list call) :
  (validate_name name).1 = true ->
  (validate_text_input text_input 10).1 = false ->
  on_analyze name text_input uploaded_image log
  = (Ok (ShowError (validate_text_input text_input 10).2), log).
Proof.
  intros H1 H2. unfold App.on_analyze.
  destruct (validate_name name) as [nv ne].
  destruct (validate_text_input text_input 10) as [tv te].
  cbn [fst snd] in *. now subst.
Qed.

Lemma processed_lookups (p s : Q) (text : string) :
  let nlp_results :=
    <["processed_text" := VStr (Py.take 500 text)]>
      (<["success" := VBool true]> (analysis_of p s text)) in
  nlp_results !! "success" = Some (VBool true)
  /\ nlp_results !! "traits" = Some (VScores (traits_of p text))
  /\ nlp_results !! "polarity" = Some (VFloat (Py.round p 2)).
Proof.
  unfold analysis_of. cbv zeta. split; [| split].
  - rewrite lookup_insert_ne by discriminate. apply lookup_insert_eq.
  - repeat (rewrite lookup_insert_ne by discriminate).
    apply lookup_insert_eq.
  - repeat (rewrite lookup_insert_ne by discriminate).
    apply lookup_insert_eq.
Qed.

Lemma on_analyze_valid
    (name text_input : string) (uploaded_image : option (list Z))
    (log : list call) :
  (validate_name name).1 = true ->
  (validate_text_input text_input 10).1 = true ->
  (forall e, sentiment text_input = Raise e ->
     exists calls,
       on_analyze name text_input uploaded_image log
       = (Ok (ShowError ("Analysis failed: " +:+ str e)), log ++ calls))
  /\ (forall polarity subjectivity emotion,
        sentiment text_input = Ok (polarity, subjectivity) ->
        emotion_result'' uploaded_image !! "dominant_emotion"
        = Some (FStr emotion) ->
        exists calls,
          on_analyze name text_input uploaded_image log
          = (Ok (Analysed (profile_of name text_input polarity emotion)),
             log ++ calls)).
Proof.
  intros H1 H2.
  assert (~ Spec.too_short text_input) as Hg.
  { apply validate_text_input_accepts in H2 as (Hs & Hmin & _).
    intros [-> | [H | H]]; [now apply Hs | contradiction | lia]. }
  unfold App.on_analyze.
  destruct (validate_name name) as [nv ne].
  destruct (validate_text_input text_input 10) as [tv te].
  cbn [fst snd] in H1, H2. subst nv tv. cbn [negb].
  destruct (process_init_cases sentiment text_input log)
    as [(Hg' & _) | [(_ & e & calls & Hs & Hrun)
                    | (_ & p & s & calls & Hs & Hrun)]];
    [contradiction | |]; split.
  - intros e' He'. assert (e' = e) as -> by congruence.
    exists calls. unfold mbind at 1, M_bind at 1. rewrite Hrun.
    reflexivity.
  - intros polarity subjectivity emotion Hs'. congruence.
  - intros e' He'. congruence.
  - intros polarity subjectivity emotion Hs' Hem.
    assert (polarity = p) as -> by congruence.
    exists calls. unfold mbind at 1, M_bind at 1. rewrite Hrun.
    destruct (processed_lookups p s text_input) as (L1 & L2 & L3).
    cbv zeta in L1, L2, L3.
    unfold getitem. rewrite L1, L2, L3, Hem. reflexivity.
Qed.


Lemma traits_of_length (polarity : Q) (text : string) :
  (1 <= length (traits_of polarity text) <= 5)%nat.
Proof.
  unfold traits_of.
  destruct (Spec.matched text) as [| kv rest] eqn:E.
  - destruct (Qltb 0 polarity); cbn; lia.
  - rewrite length_take. unfold PersonalityAnalyzer.sorted_by_score_desc.
    rewrite sorted_length. cbn [length]. lia.
Qed.


End Submission.


(** ** The avatar *)

(** A first entry that no later entry exceeds is the one [max] picks. *)
Lemma max_key_dominated (best : string * Q) (rest : scores) :
  Forall (Spec.before_desc best) rest ->
  AvatarGenerator.max_key best rest = best.1.
Proof.
  induction rest as [| kv rest IH]; intros H; [reflexivity |].
  apply Forall_cons in H as [Hkv Hrest].
  cbn [AvatarGenerator.max_key].
  apply before_desc_le in Hkv.
  destruct (Qltb best.2 kv.2) eqn:Hlt.
  - apply Qltb_lt in Hlt. exfalso. eapply Qlt_not_le; eassumption.
  - now apply IH.
Qed.

Lemma first_style_range (dominant_trait style : string)
    (mapping : list (string * string)) :
  AvatarGenerator.first_style dominant_trait mapping = Some style ->
  style ∈ mapping.*2.
Proof.
  induction mapping as [| [key style'] mapping IH]; [discriminate |].
  cbn [AvatarGenerator.first_style].
  destruct (Py.contains key dominant_trait).
  - intros [= ->]. apply elem_of_cons. now left.
  - intros H. apply elem_of_cons. right. now apply IH.
Qed.

Lemma get_style_from_traits_range (traits : scores) :
  AvatarGenerator.get_style_from_traits traits
  ∈ AvatarGenerator.STYLE_MAPPING.*2.
Proof.
  assert (AvatarGenerator.style_at "default"
          ∈ AvatarGenerator.STYLE_MAPPING.*2) as Hd
    by (apply (bool_decide_unpack _); vm_compute; exact I).
  unfold AvatarGenerator.get_style_from_traits.
  destruct traits as [| kv rest]; [exact Hd |].
  cbv zeta.
  destruct (AvatarGenerator.first_style _ _) as [style |] eqn:E;
    [| exact Hd].
  eapply first_style_range, E.
Qed.



Lemma extract_traits_sorted
    (sentiment : string -> Result (Q * Q)) (text : string) (result : scores) :
  eval (PersonalityAnalyzer.extract_traits sentiment text) = Ok result ->
  result <> [] /\ StronglySorted Spec.before_desc result.
Proof.
  unfold eval. intros Hrun.
  destruct (Spec.matched text) as [| kv rest] eqn:E.
  - rewrite (extract_traits_fallback sentiment text [] E) in Hrun.
    cbn [fst] in Hrun.
    destruct (sentiment text) as [[polarity subjectivity] | e];
      [| discriminate Hrun].
    injection Hrun as <-. cbn [fst].
    destruct (Qltb 0 polarity); (split; [discriminate | repeat constructor]).
  - assert (Spec.matched text <> []) as Hne by (rewrite E; discriminate).
    rewrite (extract_traits_matched sentiment text [] Hne) in Hrun.
    cbn [fst] in Hrun. injection Hrun as <-. split.
    + intros Hnil. apply (f_equal length) in Hnil.
      rewrite length_take in Hnil.
      unfold PersonalityAnalyzer.sorted_by_score_desc in Hnil.
      rewrite sorted_length, E in Hnil. simpl in Hnil. lia.
    + apply StronglySorted_take, sorted_by_score_desc_Sorted.
Qed.

(** X17. The avatar style for the traits that [extract_traits] returns
    is the entry of [STYLE_MAPPING] for the lower-cased name of the
    first (highest scoring) trait, and "avataaars" when there is no
    such entry: on these names the substring search of
    [get_style_from_traits] finds what an exact lookup finds. *)
Theorem extract_traits_avatar_style
    (sentiment : string -> Result (Q * Q)) (text : string) (result : scores) :
  eval (PersonalityAnalyzer.extract_traits sentiment text) = Ok result ->
  exists top confidence rest,
    result = (top, confidence) :: rest
    /\ AvatarGenerator.get_style_from_traits result
       = table_get AvatarGenerator.STYLE_MAPPING (Py.lower top) "avataaars".
Proof.
  intros Hrun.
  destruct (extract_traits_sorted sentiment text result Hrun) as [Hne Hs].
  destruct result as [| [top confidence] rest]; [contradiction |].
  exists top, confidence, rest. split; [reflexivity |].
  assert (top ∈ keys ((top, confidence) :: rest)) as Hk
    by (apply elem_of_cons; now left).
  pose proof (extract_traits_keys sentiment text _ top Hrun Hk) as Hin.
  apply StronglySorted_inv in Hs as [_ Hall].
  unfold AvatarGenerator.get_style_from_traits.
  rewrite (max_key_dominated (top, confidence) rest Hall). cbn [fst].
  cbn in Hin.
  repeat (apply elem_of_cons in Hin as [-> | Hin]);
    [reflexivity .. | now apply elem_of_nil in Hin].
Qed.

Lemma extract_traits_avatar_style_witness :
  exists top confidence rest,
    [("Creative", (533 # 10)%Q)] = (top, confidence) :: rest
    /\ AvatarGenerator.get_style_from_traits [("Creative", (533 # 10)%Q)]
       = table_get AvatarGenerator.STYLE_MAPPING (Py.lower top) "avataaars".
Proof.
  exact (extract_traits_avatar_style (fun _ => Ok (1 # 2, 3 # 5)%Q)
           "I create art" [("Creative", (533 # 10)%Q)]
           ltac:(vm_compute; reflexivity)).
Defined.

(** X18. The avatar URL depends on the traits only through the style
    and the set of trait names, and on the emotion only through its
    lower-cased form; an emotion other than happy and sad leaves the URL
    as it is for "neutral". *)
Theorem generate_avatar_url_determined
    (name : string) (traits1 traits2 : scores) (emotion1 emotion2 : string) :
  keys traits1 ≡ₚ keys traits2 ->
  AvatarGenerator.get_style_from_traits traits1
  = AvatarGenerator.get_style_from_traits traits2 ->
  Py.lower emotion1 = Py.lower emotion2 ->
  AvatarGenerator.generate_avatar_url name (Some traits1) emotion1
  = AvatarGenerator.generate_avatar_url name (Some traits2) emotion2
  /\ (Py.lower emotion1 <> "happy" -> Py.lower emotion1 <> "sad" ->
      AvatarGenerator.generate_avatar_url name (Some traits1) emotion1
      = AvatarGenerator.generate_avatar_url name (Some traits1) "neutral").
Proof.
  intros Hk Hstyle Hem. unfold AvatarGenerator.generate_avatar_url.
  cbv zeta. split.
  - rewrite Hstyle, Hem. unfold AvatarGenerator.generate_seed.
    now rewrite (sorted_strings_Permutation _ _ Hk).
  - intros Hh Hsad.
    destruct (String.eqb_spec (Py.lower emotion1) "happy");
      [contradiction |].
    destruct (String.eqb_spec (Py.lower emotion1) "sad");
      [contradiction |].
    reflexivity.
Qed.

Lemma generate_avatar_url_determined_witness :
  AvatarGenerator.generate_avatar_url "Alice"
    (Some [("Creative", 60%Q); ("Calm", (283 # 10)%Q)]) "Happy"
  = AvatarGenerator.generate_avatar_url "Alice"
      (Some [("Calm", 40%Q); ("Creative", (533 # 10)%Q)]) "HAPPY".
Proof.
  refine (proj1 (generate_avatar_url_determined "Alice"
            [("Creative", 60%Q); ("Calm", (283 # 10)%Q)]
            [("Calm", 40%Q); ("Creative", (533 # 10)%Q)] "Happy" "HAPPY"
            _ _ _)).
  - apply Permutation_swap.
  - vm_compute; reflexivity.
  - vm_compute; reflexivity.
Defined.

(** ** Several avatars *)

Lemma imap_firstn {A B} (f : nat -> A -> B) (n : nat) (l : list A) :
  imap f (take n l) = take n (imap f l).
Proof.
  revert f n. induction l as [| x l IH]; intros f [| n]; try reflexivity.
  cbn [take imap]. f_equal. apply IH.
Qed.

(** The four variations, of which [generate_multiple_avatars] returns
    the first ones. *)
Lemma generate_multiple_avatars_take
    (name : string) (traits : scores) (count : Z) :
  generate_multiple_avatars name traits count
  = Py.slice_to (generate_multiple_avatars name traits 4) count.
Proof.
  unfold generate_multiple_avatars, Py.slice_to. cbv zeta.
  rewrite length_imap.
  change (take (Z.to_nat 4) ?l) with l.
  cbn [Z.leb Z.compare length].
  destruct (0 <=? count)%Z; apply imap_firstn.
Qed.

Lemma slice_to_length {A} (l : list A) (n : Z) :
  length (Py.slice_to l n)
  = Z.to_nat (if (0 <=? n)%Z then Z.min n (Z.of_nat (length l))
              else Z.of_nat (length l) + n).
Proof.
  unfold Py.slice_to.
  destruct (Z.leb_spec 0 n); rewrite length_take; lia.
Qed.

Lemma generate_multiple_avatars_NoDup_four (name : string) (traits : scores) :
  NoDup (generate_multiple_avatars name traits 4).
Proof.
  unfold generate_multiple_avatars, Py.slice_to. cbv zeta.
  change (take (Z.to_nat 4) ?l) with l.
  cbn [Z.leb Z.compare imap].
  set (seed := AvatarGenerator.generate_seed name (keys traits)).
  unfold AvatarGenerator.DICEBEAR_BASE_URL.
  repeat (rewrite !append_cons || rewrite append_nil_r).
  repeat (apply NoDup_cons; split;
          [rewrite ?elem_of_cons, elem_of_nil; intros H;
           repeat (destruct H as [H | H]); try discriminate H; exact H |]).
  apply NoDup_nil_2.
Qed.

(** X19. [generate_multiple_avatars] returns the first [count] of four
    variations (all four when [count] exceeds four, and all but the
    last [-count] for a negative [count]), and no URL twice. *)
Theorem generate_multiple_avatars_distinct
    (name : string) (traits : scores) (count : Z) :
  length (generate_multiple_avatars name traits count)
  = Z.to_nat (if (0 <=? count)%Z then Z.min count 4 else 4 + count)
  /\ generate_multiple_avatars name traits count
     `prefix_of` generate_multiple_avatars name traits 4
  /\ NoDup (generate_multiple_avatars name traits count).
Proof.
  rewrite generate_multiple_avatars_take.
  split; [| split].
  - rewrite slice_to_length.
    change (length (generate_multiple_avatars name traits 4)) with 4%nat.
    reflexivity.
  - unfold Py.slice_to. destruct (0 <=? count)%Z; apply prefix_take.
  - apply (sublist_NoDup _ (generate_multiple_avatars name traits 4));
      [apply generate_multiple_avatars_NoDup_four |].
    unfold Py.slice_to. destruct (0 <=? count)%Z; apply sublist_take.
Qed.

(** ** File names *)

Lemma filter_chars_all (p : ascii -> bool) (s : string) :
  Py.all_chars p (Py.filter_chars p s) = true.
Proof.
  induction s as [| c s IH]; [reflexivity |].
  cbn [Py.filter_chars]. destruct (p c) eqn:E; [| exact IH].
  cbn [Py.all_chars]. now rewrite E.
Qed.

Lemma filter_chars_fixed (p : ascii -> bool) (s : string) :
  Py.all_chars p s = true -> Py.filter_chars p s = s.
Proof.
  induction s as [| c s IH]; [reflexivity |].
  cbn [Py.all_chars Py.filter_chars].
  intros [Hc Hs]%andb_true_iff. rewrite Hc. f_equal. now apply IH.
Qed.

Lemma all_chars_has_char (p : ascii -> bool) (c : ascii) (s : string) :
  Py.all_chars p s = true -> p c = false -> Py.has_char c s = false.
Proof.
  intros Hall Hc. induction s as [| c' s IH]; [reflexivity |].
  cbn [Py.all_chars] in Hall. apply andb_true_iff in Hall as [Hc' Hs].
  cbn [Py.has_char]. rewrite (IH Hs), orb_false_r.
  destruct (Ascii.eqb_spec c c') as [-> |]; congruence.
Qed.

Lemma all_chars_app (p : ascii -> bool) (s t : string) :
  Py.all_chars p (s +:+ t) = Py.all_chars p s && Py.all_chars p t.
Proof.
  induction s as [| c s IH]; [reflexivity |].
  rewrite append_cons. cbn [Py.all_chars]. now rewrite IH, andb_assoc.
Qed.

Lemma has_char_app (c : ascii) (s t : string) :
  Py.has_char c (s +:+ t) = Py.has_char c s || Py.has_char c t.
Proof.
  induction s as [| c' s IH]; [reflexivity |].
  rewrite append_cons. cbn [Py.has_char]. now rewrite IH, orb_assoc.
Qed.

Lemma basename_fixed (p : string) :
  Py.has_char "/" p = false -> Py.basename p = p.
Proof.
  destruct p as [| c p]; [reflexivity |].
  cbn [Py.has_char Py.basename].
  intros [Hc Hp]%orb_false_iff. rewrite Hp.
  rewrite Ascii.eqb_sym, Hc. reflexivity.
Qed.

Lemma sanitize_filename_chars (filename : string) :
  Py.all_chars filename_char (_sanitize_filename filename) = true
  /\ Py.has_char "." (_sanitize_filename filename) = true.
Proof.
  unfold _sanitize_filename. cbv zeta.
  fold filename_char.
  pose proof (filter_chars_all filename_char (Py.basename filename)) as Hall.
  destruct (Py.has_char "." (Py.filter_chars filename_char _)) eqn:Hdot;
    cbn [negb].
  - now split.
  - rewrite all_chars_app, has_char_app, Hall, Hdot. split; reflexivity.
Qed.

Lemma sanitize_filename_fixed (filename : string) :
  Py.all_chars filename_char filename = true ->
  Py.has_char "." filename = true ->
  _sanitize_filename filename = filename.
Proof.
  intros Hall Hdot. unfold _sanitize_filename. cbv zeta.
  fold filename_char.
  rewrite basename_fixed
    by (apply (all_chars_has_char filename_char); [exact Hall | reflexivity]).
  rewrite (filter_chars_fixed _ _ Hall), Hdot. reflexivity.
Qed.

(** X20. A name returned by [_sanitize_filename] consists of letters,
    digits, dots, underscores and hyphens, contains a dot and no slash;
    the names that it returns unchanged are exactly the names of this
    form (a name of dots only among them), and sanitizing twice is
    sanitizing once. *)
Theorem sanitize_filename_safe (filename : string) :
  Py.all_chars filename_char (_sanitize_filename filename) = true
  /\ Py.has_char "." (_sanitize_filename filename) = true
  /\ Py.has_char "/" (_sanitize_filename filename) = false
  /\ (_sanitize_filename filename = filename <->
      Py.all_chars filename_char filename = true
      /\ Py.has_char "." filename = true)
  /\ _sanitize_filename (_sanitize_filename filename)
     = _sanitize_filename filename.
Proof.
  destruct (sanitize_filename_chars filename) as [Hall Hdot].
  split; [exact Hall |]. split; [exact Hdot |].
  split; [| split].
  - apply (all_chars_has_char filename_char); [exact Hall | reflexivity].
  - split.
    + intros <-. now split.
    + intros [H1 H2]. now apply sanitize_filename_fixed.
  - now apply sanitize_filename_fixed.
Qed.

(** ** The sanitized input *)

Lemma isspace_blank : Py.isspace " " = true.
Proof. reflexivity. Qed.

Lemma lstrip_fixed_head (c : ascii) (s : string) :
  Py.lstrip (String c s) = String c s -> Py.isspace c = false.
Proof.
  cbn [Py.lstrip]. destruct (Py.isspace c); [| reflexivity].
  intros H. exfalso. pose proof (lstrip_length s) as Hlen.
  rewrite H in Hlen. cbn [String.length] in Hlen. lia.
Qed.

Lemma rstrip_fixed_tail (c : ascii) (s : string) :
  Py.rstrip (String c s) = String c s ->
  Py.rstrip s = s /\ (s = "" -> Py.isspace c = false).
Proof.
  rewrite rstrip_cons.
  destruct (String.eqb (Py.rstrip s) "" && Py.isspace c) eqn:E;
    [discriminate |].
  intros [= H]. split; [exact H |].
  intros ->. exact E.
Qed.

Lemma sub_spaces_single (u : string) (in_run : bool) :
  Py.rstrip u = u -> u <> "" ->
  single_spaced_go in_run (Py.sub_spaces_go in_run u) = true.
Proof.
  revert in_run. induction u as [| c s IH]; intros in_run Hr Hne;
    [contradiction |].
  apply rstrip_fixed_tail in Hr as [Hs Hc].
  cbn [Py.sub_spaces_go]. destruct (Py.isspace c) eqn:Ec.
  - assert (s <> "") as Hs'
      by (intros ->; specialize (Hc eq_refl); congruence).
    destruct in_run.
    + now apply IH.
    + cbn [single_spaced_go]. rewrite isspace_blank.
      rewrite (IH true Hs Hs'). reflexivity.
  - cbn [single_spaced_go]. rewrite Ec.
    destruct (String.eqb_spec s "") as [-> | Hs']; [reflexivity |].
    now apply IH.
Qed.

Lemma sanitize_input_single (text : string) :
  single_spaced (sanitize_input text) = true.
Proof.
  unfold sanitize_input, Py.sub_spaces. cbv zeta.
  pose proof (lstrip_rstrip (Py.lstrip text) (lstrip_idem text)) as Hl.
  pose proof (rstrip_idem (Py.lstrip text)) as Hr.
  fold (Py.strip text) in Hl, Hr.
  destruct (Py.strip text) as [| c s]; [reflexivity |].
  apply lstrip_fixed_head in Hl.
  apply rstrip_fixed_tail in Hr as [Hs _].
  cbn [Py.sub_spaces_go]. rewrite Hl.
  cbn [single_spaced single_spaced_go]. rewrite Hl.
  destruct (String.eqb_spec s "") as [-> | Hs']; [reflexivity |].
  now apply sub_spaces_single.
Qed.

Lemma split_go_sub_spaces (s : string) (cur : option string) (in_run : bool) :
  (in_run = true -> cur = None) ->
  Py.split_go cur (Py.sub_spaces_go in_run s) = Py.split_go cur s.
Proof.
  revert cur in_run. induction s as [| c s IH]; intros cur in_run H;
    [reflexivity |].
  cbn [Py.sub_spaces_go Py.split_go]. destruct (Py.isspace c) eqn:Ec.
  - destruct in_run.
    + rewrite (H eq_refl). cbn [fmap option_fmap option_map option_list app].
      now apply IH.
    + cbn [Py.split_go]. rewrite isspace_blank. f_equal. now apply IH.
  - cbn [Py.split_go]. rewrite Ec. apply IH. discriminate.
Qed.

Lemma single_spaced_go_fixed (s : string) (prev_space : bool) :
  single_spaced_go prev_space s = true ->
  Py.sub_spaces_go prev_space s = s /\ Py.rstrip s = s.
Proof.
  revert prev_space. induction s as [| c s IH]; intros prev_space H;
    [now split |].
  cbn [single_spaced_go] in H. cbn [Py.sub_spaces_go]. rewrite rstrip_cons.
  destruct (Py.isspace c) eqn:Ec.
  - apply andb_true_iff in H as [[Hc Hp]%andb_true_iff Hs].
    apply Ascii.eqb_eq in Hc. subst c.
    destruct prev_space; [discriminate Hp |].
    destruct (IH true Hs) as [H1 H2]. rewrite H1, H2.
    destruct s as [| c' s']; [discriminate Hs |]. now split.
  - destruct (IH false H) as [H1 H2]. rewrite H1, H2, andb_false_r.
    now split.
Qed.

Lemma single_spaced_fixed (s : string) :
  single_spaced s = true -> sanitize_input s = s.
Proof.
  destruct s as [| c s]; [reflexivity |].
  cbn [single_spaced]. intros H.
  assert (Py.isspace c = false) as Ec.
  { cbn [single_spaced_go] in H. destruct (Py.isspace c); [| reflexivity].
    now rewrite andb_false_r in H. }
  destruct (single_spaced_go_fixed _ _ H) as [_ Hr].
  unfold sanitize_input, Py.strip, Py.sub_spaces. cbv zeta.
  cbn [Py.lstrip]. rewrite Ec, Hr.
  cbn [single_spaced_go] in H. rewrite Ec in H.
  cbn [Py.sub_spaces_go]. rewrite Ec.
  now rewrite (proj1 (single_spaced_go_fixed _ _ H)).
Qed.

(** X21. [sanitize_input] returns a text in which white space occurs
    only as single blanks between words; the words are those of the
    text it was given; it leaves exactly the texts of this form
    unchanged, and applying it twice is applying it once. *)
Theorem sanitize_input_normal_form (text : string) :
  single_spaced (sanitize_input text) = true
  /\ Py.split (sanitize_input text) = Py.split text
  /\ (sanitize_input text = text <-> single_spaced text = true)
  /\ sanitize_input (sanitize_input text) = sanitize_input text.
Proof.
  pose proof (sanitize_input_single text) as Hs.
  split; [exact Hs |]. split; [| split].
  - unfold sanitize_input, Py.sub_spaces, Py.split at 1. cbv zeta.
    rewrite split_go_sub_spaces by discriminate.
    apply split_strip.
  - split; [now intros <- | apply single_spaced_fixed].
  - now apply single_spaced_fixed.
Qed.

(** ** The tables of the emotions *)

Lemma table_get_notin (table : list (string * string)) (key fallback : string) :
  key ∉ table.*1 -> table_get table key fallback = fallback.
Proof.
  unfold table_get. induction table as [| [k v] table IH]; [reflexivity |].
  intros Hnotin. apply not_elem_of_cons in Hnotin as [Hne Hrest].
  cbn [find fst]. destruct (String.eqb_spec key k); [contradiction |].
  now apply IH.
Qed.

(** X22. The colour and the description of an emotion do not depend on
    its case, and the emotions that have a colour of their own, those
    that have a description of their own and those that have an emoji
    in the detector are the same. *)
Theorem emotion_tables_agree (emotion : string) :
  get_color_from_emotion (Py.lower emotion) = get_color_from_emotion emotion
  /\ get_emotion_description (Py.lower emotion)
     = get_emotion_description emotion
  /\ (Py.lower emotion ∈ EmotionDetector.EMOTION_EMOJIS.*1 <->
      get_color_from_emotion emotion <> "#808080")
  /\ (Py.lower emotion ∈ EmotionDetector.EMOTION_EMOJIS.*1 <->
      get_emotion_description emotion <> "Interesting expression!").
Proof.
  unfold get_color_from_emotion, get_emotion_description.
  rewrite lower_idem. split; [reflexivity |]. split; [reflexivity |].
  destruct (decide (Py.lower emotion ∈ EmotionDetector.EMOTION_EMOJIS.*1))
    as [Hin | Hnotin].
  - split; (split; [intros _ | intros _; exact Hin]);
      cbn in Hin;
      repeat (apply elem_of_cons in Hin as [-> | Hin]);
      try discriminate; now apply elem_of_nil in Hin.
  - split; (split; [contradiction |]); intros H; exfalso; apply H;
      apply table_get_notin; exact Hnotin.
Qed.

(** ** The report of the detector *)

Section Report.
Variable image : Type.
Variable imdecode : list Z -> option image.
Variable write_temp : image -> Result string.
Variable path_exists : string -> bool.
Variable DeepFace_analyze : string -> Result EmotionDetector.deepface_result.

Lemma report_well_formed (a : EmotionDetector.analysis) :
  well_formed_report (EmotionDetector.report a).
Proof.
  exists true. split; [reflexivity |].
  split; [eexists; reflexivity |]. split; [eexists; reflexivity |].
  split; [discriminate |]. intros _.
  split; [reflexivity |]. split; eexists; reflexivity.
Qed.

Lemma failure_well_formed (r : gmap string field) :
  r !! "success" = Some (FBool false) ->
  is_Some (r !! "error") ->
  r !! "confidence" = None ->
  r !! "dominant_emotion" = Some (FStr "neutral") ->
  r !! "emoji" = Some (FEmoji neutral_face) ->
  well_formed_report r.
Proof.
  intros Hs He Hc Hd Hj. exists false. split; [exact Hs |].
  split; [now rewrite Hd |]. split; [now rewrite Hj |].
  split; [now intros _ | discriminate].
Qed.

Lemma detect_emotion_well_formed
    (image_path : option string) (image_array : option image) :
  well_formed_report
    (EmotionDetector.detect_emotion image write_temp path_exists
       DeepFace_analyze image_path image_array).
Proof.
  unfold EmotionDetector.detect_emotion.
  unfold mbind, Result_bind, mret, Result_ret.
  destruct image_array as [arr |].
  - destruct (write_temp arr) as [path | e];
      [| apply failure_well_formed; first [reflexivity | eexists; reflexivity]].
    destruct (negb (String.eqb path "") && path_exists path);
      [| apply failure_well_formed; first [reflexivity | eexists; reflexivity]].
    destruct (DeepFace_analyze path) as [[a | [| a l]] | e];
      [apply report_well_formed | | apply report_well_formed |];
      apply failure_well_formed; first [reflexivity | eexists; reflexivity].
  - destruct image_path as [path |];
      [| apply failure_well_formed; first [reflexivity | eexists; reflexivity]].
    destruct (negb (String.eqb path "") && path_exists path);
      [| apply failure_well_formed; first [reflexivity | eexists; reflexivity]].
    destruct (DeepFace_analyze path) as [[a | [| a l]] | e];
      [apply report_well_formed | | apply report_well_formed |];
      apply failure_well_formed; first [reflexivity | eexists; reflexivity].
Qed.


End Report.
